(** * ai-agent-go: plan extraction, the think/execute engine and the SSE broker

    A shallow embedding of [internal/core/plan.go], [internal/core/agent.go]
    and of the [sse] package (client queues and the broker loop), followed by
    the properties of the design document that concern them.

    Conventions.
    - Go strings are byte strings: [string] of the standard library, one
      [ascii] per byte; [len] is the byte length.
    - A Go [(T, error)] result is a [res T]; an [error] is its message, and
      wrapping with [%w] or printing with [%v] concatenates messages.
    - A run-time panic (failed type assertion, nil dereference, send on a
      closed channel) is an outcome of its own, distinct from an error value.
    - The language model, the tool manager and the retrieval engine are
      interfaces of the program; they are records of functions that see the
      log of the calls made so far.
    - [json.Unmarshal] belongs to Go's standard library; the engine is
      parameterised by it (class [Json]); a reference decoder for closed runs
      is given in module [RefJson].
    - The deadline of the [context.Context] reaches the backends only: a
      backend that gives up returns an error like any other.  Time stamps and
      log lines are left out.
    - A goroutine is a step of its own in the step relation of the broker;
      the body of a [case] of [Broker.run] is one step. *)

From Stdlib Require Import ZArith String Ascii List Bool Lia DecimalString.
From Stdlib Require Import Floats Uint63.
From stdpp Require Import base gmap strings list.

Set Warnings "-register-all".

(** [+:+] computes on the constructors of its first argument. *)
Arguments String.append !_ _ / : simpl nomatch.

(** ** Byte strings as Go uses them *)

Module GoString.

(** The double quote, and text written with apostrophes where the Go source
    has double quotes. *)
Definition dquote : ascii := "034"%char.

Fixpoint quoted (s : string) : string :=
  match s with
  | EmptyString => EmptyString
  | String c s' =>
      String (if Ascii.eqb c "'"%char then dquote else c) (quoted s')
  end.

Definition len (s : string) : Z := Z.of_nat (String.length s).

Definition isEmpty (s : string) : bool :=
  match s with EmptyString => true | _ => false end.

(** [s[lo:hi]] and [s[lo:]], for indices within bounds. *)
Definition slice (s : string) (lo hi : Z) : string :=
  String.substring (Z.to_nat lo) (Z.to_nat (hi - lo)) s.

Definition sliceFrom (s : string) (lo : Z) : string :=
  slice s lo (len s).

(** [strings.Contains]. *)
Fixpoint Contains (s substr : string) : bool :=
  if String.prefix substr s then true
  else match s with
       | EmptyString => false
       | String _ s' => Contains s' substr
       end.

(** [strings.ToLower] on ASCII letters; other bytes are kept. *)
Definition lowerByte (c : ascii) : ascii :=
  let n := nat_of_ascii c in
  if (65 <=? n)%nat && (n <=? 90)%nat then ascii_of_nat (n + 32) else c.

Fixpoint ToLower (s : string) : string :=
  match s with
  | EmptyString => EmptyString
  | String c s' => String (lowerByte c) (ToLower s')
  end.

(** [strings.Fields]: the maximal runs of bytes that are not ASCII white
    space ('\t', '\n', '\v', '\f', '\r', ' '). *)
Definition isSpace (c : ascii) : bool :=
  let n := nat_of_ascii c in
  ((9 <=? n)%nat && (n <=? 13)%nat) || (n =? 32)%nat.

Fixpoint fieldsFrom (s : string) (word : string) : list string :=
  match s with
  | EmptyString => if isEmpty word then [] else [word]
  | String c s' =>
      if isSpace c
      then (if isEmpty word then fieldsFrom s' EmptyString
            else word :: fieldsFrom s' EmptyString)
      else fieldsFrom s' (word +:+ String c EmptyString)
  end.

Definition Fields (s : string) : list string := fieldsFrom s EmptyString.

(** [strings.Join]. *)
Fixpoint Join (l : list string) (sep : string) : string :=
  match l with
  | [] => EmptyString
  | [x] => x
  | x :: rest => x +:+ sep +:+ Join rest sep
  end.

(** [%d] of an [int]. *)
Definition itoa (n : Z) : string := NilZero.string_of_int (Z.to_int n).

(** [%v] of a [[]string]. *)
Definition fmtStrings (l : list string) : string :=
  "[" +:+ Join l " " +:+ "]".

(** [%.2f] of a [float64]: the exact binary value rounded to two decimals,
    ties to even. *)
Definition twoDigits (n : Z) : string :=
  (if (n <? 10)%Z then "0" else EmptyString) +:+ itoa n.

Definition fmtFloat2 (f : float) : string :=
  match Prim2SF f with
  | S754_nan => "NaN"
  | S754_infinity s => if s then "-Inf" else "+Inf"
  | S754_zero s => (if s then "-" else EmptyString) +:+ "0.00"
  | S754_finite s m e =>
      let num := (Z.pos m * 100)%Z in
      let n :=
        match e with
        | Z.neg p =>
            let den := Z.pow_pos 2 p in
            let q := (num / den)%Z in
            let r := (num mod den)%Z in
            if (den <? 2 * r)%Z then (q + 1)%Z
            else if (2 * r =? den)%Z && Z.odd q then (q + 1)%Z
            else q
        | _ => (num * 2 ^ e)%Z
        end in
      (if s then "-" else EmptyString)
        +:+ itoa (n / 100) +:+ "." +:+ twoDigits (n mod 100)
  end.

(** [int(f)] of a [float64]: truncation toward zero; the value amd64 gives
    (the smallest [int64]) where the operand is not in range. *)
Definition minInt64 : Z := (- 2 ^ 63)%Z.

Definition intOfFloat (f : float) : Z :=
  match Prim2SF f with
  | S754_zero _ => 0%Z
  | S754_finite s m e =>
      let a :=
        match e with
        | Z.neg p => (Z.pos m / Z.pow_pos 2 p)%Z
        | _ => (Z.pos m * 2 ^ e)%Z
        end in
      let v := if s then (- a)%Z else a in
      if (minInt64 <=? v)%Z && (v <? 2 ^ 63)%Z then v else minInt64
  | _ => minInt64
  end.

(** [float64(n)] of a non-negative [int]. *)
Definition floatOfInt (n : Z) : float := PrimFloat.of_uint63 (Uint63.of_Z n).

End GoString.

Import GoString.

(** ** Errors, results and panics *)

Definition error := string.

Inductive res (A : Type) : Type :=
| Ok (a : A)
| Err (e : error).
Arguments Ok {A} a.
Arguments Err {A} e.

Inductive outcome (A : Type) : Type :=
| Ret (a : A)
| Panic (msg : string).
Arguments Ret {A} a.
Arguments Panic {A} msg.

Definition nilDereference : string :=
  "runtime error: invalid memory address or nil pointer dereference".

(** ** [internal/core/plan.go] *)

(** A decoded JSON value, as [encoding/json] stores it in an [interface{}]. *)
Inductive Value : Type :=
| VNil
| VBool (b : bool)
| VNumber (f : float)
| VString (s : string)
| VArray (l : list Value)
| VObject (m : gmap string Value).

(** [PlanStep]; [Parameters] is [None] for a nil map. *)
Record PlanStep : Type := mkPlanStep {
  Action : string;
  Parameters : option (gmap string Value);
  ShouldContinue : bool
}.

(** [ExecutionPlan]; a step is a pointer and may be nil. *)
Record ExecutionPlan : Type := mkExecutionPlan {
  Thought : string;
  Steps : list (option PlanStep)
}.

Definition zeroPlan : ExecutionPlan :=
  {| Thought := EmptyString; Steps := [] |}.

(** [m[key]] with the comma-ok form, on a map that may be nil. *)
Definition param (ps : option (gmap string Value)) (key : string) : option Value :=
  match ps with
  | None => None
  | Some m => m !! key
  end.

Module Plan.

(** [findSubstring]: the first index at which [substr] occurs in [text],
    [-1] when there is none. *)
Fixpoint findSubstringFrom (text substr : string) (i : Z) : Z :=
  if String.prefix substr text then i
  else match text with
       | EmptyString => (-1)%Z
       | String _ text' => findSubstringFrom text' substr (i + 1)
       end.

Definition findSubstring (text substr : string) : Z :=
  findSubstringFrom text substr 0.

Definition jsonStart : string := "```json".
Definition codeStart : string := "```".
Definition endMarkers : list string := ["```"; String "010" (String "010" EmptyString)].

(** The loop over the end markers: the first marker found decides. *)
Fixpoint findEnd (response : string) (start : Z) (markers : list string) : Z :=
  match markers with
  | [] => (-1)%Z
  | marker :: rest =>
      let idx := findSubstring (sliceFrom response start) marker in
      if (idx =? -1)%Z then findEnd response start rest
      else (start + idx)%Z
  end.

Definition extractJSONFromResponse (response : string) : string :=
  let start :=
    let idx := findSubstring response jsonStart in
    if negb (idx =? -1)%Z then (idx + len jsonStart)%Z
    else
      let idx := findSubstring response codeStart in
      if negb (idx =? -1)%Z then (idx + len codeStart)%Z else (-1)%Z in
  let end_ :=
    if negb (start =? -1)%Z then findEnd response start endMarkers
    else (-1)%Z in
  let end_ :=
    if negb (start =? -1)%Z && (end_ =? -1)%Z then len response else end_ in
  if negb (start =? -1)%Z && negb (end_ =? -1)%Z && (start <? end_)%Z
  then slice response start end_
  else EmptyString.

(** The body of the loop of [validatePlan] for the step of index [i]. *)
Definition validateStep (i : Z) (step : PlanStep) : option error :=
  if isEmpty (Action step) then
    Some ("步骤 " +:+ itoa (i + 1) +:+ "缺少执行动作")
  else
    match Parameters step with
    | None => Some ("步骤 " +:+ itoa (i + 1) +:+ "缺少参数")
    | Some ps =>
        if String.eqb (Action step) "search_tool" then
          match ps !! "tool_name" with
          | None => Some "工具调用步骤缺少tool_name参数"
          | Some _ =>
              match ps !! "input" with
              | None => Some "工具调用步骤缺少input参数"
              | Some _ => None
              end
          end
        else if String.eqb (Action step) "rag_search" then
          match ps !! "query" with
          | None => Some "RAG检索步骤缺少query参数"
          | Some _ => None
          end
        else if String.eqb (Action step) "reason" then
          match ps !! "prompt" with
          | None => Some "推理步骤缺少prompt参数"
          | Some _ => None
          end
        else Some ("未知的执行动作: " +:+ Action step)
    end.

Fixpoint validateSteps (i : Z) (steps : list (option PlanStep))
  : outcome (option error) :=
  match steps with
  | [] => Ret None
  | None :: _ => Panic nilDereference
  | Some step :: rest =>
      match validateStep i step with
      | Some e => Ret (Some e)
      | None => validateSteps (i + 1) rest
      end
  end.

Definition validatePlan (plan : ExecutionPlan) : outcome (option error) :=
  if isEmpty (Thought plan) then Ret (Some "执行计划缺少思考过程")
  else
    match Steps plan with
    | [] => Ret (Some "执行计划缺少步骤")
    | steps => validateSteps 0 steps
    end.

(** [json.Unmarshal(data, &plan)]: the plan it leaves in the target and the
    error it returns. *)
Class Json : Type := {
  Unmarshal : string -> ExecutionPlan -> ExecutionPlan * option error
}.

Definition ParseExecutionPlan `{Json} (response : string)
  : outcome (res ExecutionPlan) :=
  let plan := zeroPlan in
  let decoded :=
    match Unmarshal response plan with
    | (plan, None) => Ok plan
    | (plan, Some err) =>
        let jsonStr := extractJSONFromResponse response in
        if isEmpty jsonStr then
          Err ("无法从响应中提取JSON: " +:+ err)
        else
          match Unmarshal jsonStr plan with
          | (plan, None) => Ok plan
          | (_, Some err) => Err ("解析执行计划JSON失败: " +:+ err)
          end
    end in
  match decoded with
  | Err e => Ret (Err e)
  | Ok plan =>
      match validatePlan plan with
      | Panic msg => Panic msg
      | Ret (Some err) => Ret (Err ("执行计划验证失败: " +:+ err))
      | Ret None => Ret (Ok plan)
      end
  end.

End Plan.

(** ** [internal/core/agent.go] *)

Module Core.

Import Plan.

Inductive AgentStatus : Type :=
| StatusThinking
| StatusPlanning
| StatusExecuting
| StatusCompleted
| StatusError.

#[export] Instance AgentStatus_eq_dec : EqDecision AgentStatus.
Proof. solve_decision. Defined.

(** The [Data] field of an event, an [interface{}] in the source: nothing,
    the plan, the step, a recovered result, the final result, or the result
    of a step with its flag. *)
Inductive EventData : Type :=
| DataNil
| DataPlan (plan : ExecutionPlan)
| DataStep (step : PlanStep)
| DataString (s : string)
| DataResult (result : string)
| DataStepResult (result : string) (should_continue : bool).

(** [AgentEvent], without its time stamp. *)
Record AgentEvent : Type := mkAgentEvent {
  ID : string;
  Status : AgentStatus;
  Message : string;
  Data : EventData
}.

Record AgentConfig : Type := mkAgentConfig {
  ModelName : string;
  MaxIterations : Z;
  Debug : bool
}.

(** *** The three backends *)

Inductive Call : Type :=
| CallGenerate (prompt : string)
| CallExecuteTool (name input : string)
| CallSearch (query : string) (topK : Z).

(** [model.Model]. *)
Record Model : Type := mkModel {
  Generate : list Call -> string -> res string
}.

Record ToolInfo : Type := mkToolInfo { Name : string }.

(** [tool.Manager]. *)
Record Manager : Type := mkManager {
  ExecuteTool : list Call -> string -> string -> res string;
  ListTools : list Call -> list ToolInfo
}.

Record SearchResult : Type := mkSearchResult {
  Content : string;
  Similarity : float
}.

(** [rag.Engine]. *)
Record Engine : Type := mkEngine {
  Search : list Call -> string -> Z -> res (list SearchResult)
}.

(** [Agent]; a nil pointer or interface is [None]; [sseBroker] tells
    whether a broker is attached. *)
Record Agent : Type := mkAgent {
  config : AgentConfig;
  model : option Model;
  toolManager : option Manager;
  ragEngine : option Engine;
  sseBroker : bool
}.

(** *** State: the calls made to the backends, the events sent, and the
    events handed to the broker *)

Record World : Type := mkWorld {
  calls : list Call;
  events : list AgentEvent;
  broadcasts : list AgentEvent
}.

Definition emptyWorld : World :=
  {| calls := []; events := []; broadcasts := [] |}.

Definition M (A : Type) : Type := World -> outcome A * World.

Definition ret {A} (a : A) : M A := fun w => (Ret a, w).

Definition bind {A B} (c : M A) (k : A -> M B) : M B :=
  fun w =>
    match c w with
    | (Ret a, w') => k a w'
    | (Panic msg, w') => (Panic msg, w')
    end.

Definition panic {A} (msg : string) : M A := fun w => (Panic msg, w).

Definition lift {A} (o : outcome A) : M A := fun w => (o, w).

Definition getCalls : M (list Call) := fun w => (Ret (calls w), w).

Definition addCall (c : Call) : M unit :=
  fun w => (Ret tt, {| calls := calls w ++ [c];
                       events := events w;
                       broadcasts := broadcasts w |}).

#[export] Instance M_ret : MRet M := @ret.
#[export] Instance M_bind : MBind M := fun A B k c => bind c k.

(** [p.field] through a pointer that may be nil. *)
Definition deref {A} (p : option A) : M A :=
  match p with
  | Some x => ret x
  | None => panic nilDereference
  end.

(** [v.(string)], the one-result form: it panics on any other value. *)
Definition typeName (v : option Value) : string :=
  match v with
  | None | Some VNil => "nil"
  | Some (VBool _) => "bool"
  | Some (VNumber _) => "float64"
  | Some (VString _) => "string"
  | Some (VArray _) => "[]interface {}"
  | Some (VObject _) => "map[string]interface {}"
  end.

Definition assertString (v : option Value) : M string :=
  match v with
  | Some (VString s) => ret s
  | _ => panic ("interface conversion: interface {} is "
                  +:+ typeName v +:+ ", not string")
  end.

(** [sendEvent]: the event goes to the broker when there is one, and to the
    logger. *)
Definition sendEvent (a : Agent) (id : string) (status : AgentStatus)
    (message : string) (data : EventData) : M unit :=
  fun w =>
    let event := {| ID := id; Status := status; Message := message; Data := data |} in
    (Ret tt, {| calls := calls w;
                events := events w ++ [event];
                broadcasts := if sseBroker a then broadcasts w ++ [event]
                              else broadcasts w |}).

(** *** Calls to the backends *)

Definition modelGenerate (a : Agent) (prompt : string) : M (res string) :=
  m ← deref (model a);
  cs ← getCalls;
  addCall (CallGenerate prompt);;
  ret (Generate m cs prompt).

Definition managerExecuteTool (tm : Manager) (name input : string) : M (res string) :=
  cs ← getCalls;
  addCall (CallExecuteTool name input);;
  ret (ExecuteTool tm cs name input).

Definition engineSearch (e : Engine) (query : string) (topK : Z)
  : M (res (list SearchResult)) :=
  cs ← getCalls;
  addCall (CallSearch query topK);;
  ret (Search e cs query topK).

(** *** Prompts *)

(** The names [buildThinkPrompt] and [buildRetryThinkPrompt] collect from
    [ListTools]; [cs] is the call log at that moment. *)
Definition availableTools (a : Agent) (cs : list Call) : list string :=
  match toolManager a with
  | None => []
  | Some tm => map Name (ListTools tm cs)
  end.

Definition retryTemplate1 : string :=
  "你是一个智能AI助手，之前的执行计划解析失败了，请重新分析用户问题并制定正确的执行计划。

用户问题: ".
Definition retryTemplate2 : string := "
重试次数: 第".
Definition retryTemplate3 : string := "次

可用工具: ".
Definition retryTemplate4 : string := quoted "

请重新分析问题并制定执行计划，使用以下JSON格式:

{
  'thought': '你的思考过程，需要更详细地分析问题',
  'steps': [
    {
      'action': '具体执行动作(search_tool/rag_search/reason)',
      'parameters': {
        '相关参数': '值'
      },
      'should_continue': true/false
    }
  ]
}

注意：
1. 请确保JSON格式正确
2. 思考过程要更详细和具体
3. 步骤要逻辑清晰，避免循环依赖
4. 确保计划能够解决用户的核心问题

请只返回JSON格式的计划，不要其他说明。".

Definition buildRetryThinkPrompt (a : Agent) (cs : list Call) (query : string)
    (retryCount : Z) : string :=
  retryTemplate1 +:+ query +:+ retryTemplate2 +:+ itoa retryCount
    +:+ retryTemplate3 +:+ fmtStrings (availableTools a cs) +:+ retryTemplate4.

Definition thinkTemplate1 : string :=
  "你是一个智能AI助手，需要分析用户问题并制定执行计划。

当前轮次: 第 ".
Definition thinkTemplate2 : string := "用户问题: ".
Definition thinkTemplate3 : string := "

可用工具: ".
Definition thinkTemplate4 : string := quoted "

请分析问题并制定执行计划，使用以下JSON格式:

{
  'thought': '你的思考过程',
  'steps': [
    {
      'action': '具体执行动作(search_tool/rag_search/reason)',
      'parameters': {
        '相关参数': '值'
      },
      'should_continue': true/false
    }
  ]
}

执行动作说明:
- search_tool:调用工具，参数包括tool_name, input
- rag_search:向检索，参数包括query, top_k
- reason:推分析，参数包括prompt

请只返回JSON格式的计划，不要其他说明。".

Definition buildThinkPrompt (a : Agent) (cs : list Call) (query : string)
    (iteration : Z) : string :=
  thinkTemplate1 +:+ itoa iteration +:+ thinkTemplate2 +:+ query
    +:+ thinkTemplate3 +:+ fmtStrings (availableTools a cs) +:+ thinkTemplate4.

(** *** Semantic validation of a plan *)

(** The number of query words counted as matches by [isPlanRelevant]. *)
Definition matchCount (thoughtLower : string) (words : list string) : nat :=
  length (List.filter (fun word => (2 <? len word)%Z && Contains thoughtLower word) words).

(** The literal [0.3] as a [float64]. *)
Definition threshold : float := 0x1.3333333333333p-2%float.

Definition isPlanRelevant (plan : ExecutionPlan) (query : string) : bool :=
  let queryLower := ToLower query in
  let thoughtLower := ToLower (Thought plan) in
  let words := Fields queryLower in
  let matchCount := matchCount thoughtLower words in
  PrimFloat.leb threshold
    (floatOfInt (Z.of_nat matchCount) / floatOfInt (Z.of_nat (length words)))%float.

Definition toolExists (tools : list ToolInfo) (toolName : string) : bool :=
  existsb (fun t => String.eqb (Name t) toolName) tools.

(** The body of the loop of [Agent.validatePlan] for the step of index [i];
    [cs] is the call log [ListTools] sees. *)
Definition checkStep (a : Agent) (cs : list Call) (i : Z) (step : PlanStep)
  : option error :=
  let toolCheck :=
    if String.eqb (Action step) "search_tool" then
      match toolManager a with
      | None => Some ("步骤 " +:+ itoa (i + 1) +:+ "需要工具调用，但工具管理器未配置")
      | Some tm =>
          match param (Parameters step) "tool_name" with
          | Some (VString toolName) =>
              if isEmpty toolName then
                Some ("步骤 " +:+ itoa (i + 1) +:+ "的工具调用缺少tool_name参数")
              else if negb (toolExists (ListTools tm cs) toolName) then
                Some ("步骤 " +:+ itoa (i + 1) +:+ "指定的工具 " +:+ toolName +:+ " 不存在")
              else None
          | _ => Some ("步骤 " +:+ itoa (i + 1) +:+ "的工具调用缺少tool_name参数")
          end
      end
    else None in
  let ragCheck :=
    if String.eqb (Action step) "rag_search" then
      match ragEngine a with
      | None => Some ("步骤 " +:+ itoa (i + 1) +:+ "需要RAG检索，但RAG引擎未配置")
      | Some _ =>
          match param (Parameters step) "query" with
          | Some (VString queryParam) =>
              if isEmpty queryParam then
                Some ("步骤 " +:+ itoa (i + 1) +:+ "的RAG检索缺少query参数")
              else None
          | _ => Some ("步骤 " +:+ itoa (i + 1) +:+ "的RAG检索缺少query参数")
          end
      end
    else None in
  let reasonCheck :=
    if String.eqb (Action step) "reason" then
      match param (Parameters step) "prompt" with
      | Some (VString _) => None
      | _ => Some ("步骤 " +:+ itoa (i + 1) +:+ "的推理缺少prompt参数")
      end
    else None in
  match toolCheck with
  | Some e => Some e
  | None =>
      match ragCheck with
      | Some e => Some e
      | None => reasonCheck
      end
  end.

Fixpoint checkSteps (a : Agent) (cs : list Call) (i : Z)
    (steps : list (option PlanStep)) : outcome (option error) :=
  match steps with
  | [] => Ret None
  | None :: _ => Panic nilDereference
  | Some step :: rest =>
      match checkStep a cs i step with
      | Some e => Ret (Some e)
      | None => checkSteps a cs (i + 1) rest
      end
  end.

(** [Agent.validatePlan]. *)
Definition validatePlan (a : Agent) (plan : option ExecutionPlan) (query : string)
  : M (option error) :=
  match plan with
  | None => ret (Some "执行计划不能为空")
  | Some plan =>
      match Steps plan with
      | [] => ret (Some "执行计划必须包含至少一个步骤")
      | steps =>
          cs ← getCalls;
          e ← lift (checkSteps a cs 0 steps);
          match e with
          | Some e => ret (Some e)
          | None =>
              if negb (isPlanRelevant plan query)
              then ret (Some "执行计划与用户查询的相关性不足")
              else ret None
          end
      end
  end.

(** *** The Think phase *)

Section WithJson.
Context `{Json}.

Definition thinkWithRetryInternal (a : Agent) (query : string) (retryCount : Z)
  : M (res ExecutionPlan) :=
  cs ← getCalls;
  let prompt := buildRetryThinkPrompt a cs query retryCount in
  r ← modelGenerate a prompt;
  match r with
  | Err err => ret (Err ("重试思考时模型生成失败: " +:+ err))
  | Ok response =>
      p ← lift (ParseExecutionPlan response);
      match p with
      | Err err => ret (Err ("重试解析执行计划失败: " +:+ err))
      | Ok plan => ret (Ok plan)
      end
  end.

Definition think (a : Agent) (query : string) (iteration : Z)
  : M (res ExecutionPlan) :=
  cs ← getCalls;
  let prompt := buildThinkPrompt a cs query iteration in
  r ← modelGenerate a prompt;
  match r with
  | Err err => ret (Err ("模型生成失败: " +:+ err))
  | Ok response =>
      p ← lift (ParseExecutionPlan response);
      match p with
      | Err err =>
          if (iteration <? 3)%Z
          then thinkWithRetryInternal a query (iteration + 1)
          else ret (Err ("解析执行计划失败: " +:+ err))
      | Ok plan =>
          v ← validatePlan a (Some plan) query;
          match v with
          | Some err => ret (Err ("执行计划验证失败: " +:+ err))
          | None => ret (Ok plan)
          end
      end
  end.

End WithJson.

(** *** Steps *)

Definition formatRAGResultsFrom (i : Z) (results : list SearchResult) : string :=
  fold_left
    (fun acc ir =>
       acc +:+ itoa (fst ir + 1) +:+ ". " +:+ Content (snd ir)
           +:+ " (相似度: " +:+ fmtFloat2 (Similarity (snd ir)) +:+ ")"
           +:+ String "010" EmptyString)
    (combine (map Z.of_nat (seq (Z.to_nat i) (length results))) results)
    ("检索到以下相关信息:" +:+ String "010" EmptyString).

Definition formatRAGResults (results : list SearchResult) : string :=
  match results with
  | [] => "未找到相关结果"
  | _ => formatRAGResultsFrom 0 results
  end.

Definition executeToolStep (a : Agent) (step : PlanStep) : M (res string) :=
  match toolManager a with
  | None => ret (Err "工具管理器未配置")
  | Some tm =>
      toolName ← assertString (param (Parameters step) "tool_name");
      toolInput ← assertString (param (Parameters step) "input");
      r ← managerExecuteTool tm toolName toolInput;
      match r with
      | Err err => ret (Err ("工具调用失败 " +:+ toolName +:+ ": " +:+ err))
      | Ok result => ret (Ok result)
      end
  end.

Definition executeRAGStep (a : Agent) (step : PlanStep) : M (res string) :=
  match ragEngine a with
  | None => ret (Err "RAG引擎未配置")
  | Some e =>
      query ← assertString (param (Parameters step) "query");
      let topK :=
        match param (Parameters step) "top_k" with
        | Some (VNumber k) => intOfFloat k
        | _ => 5%Z
        end in
      r ← engineSearch e query topK;
      match r with
      | Err err => ret (Err ("RAG检索失败: " +:+ err))
      | Ok results => ret (Ok (formatRAGResults results))
      end
  end.

Definition executeReasonStep (a : Agent) (step : PlanStep) : M (res string) :=
  prompt ← assertString (param (Parameters step) "prompt");
  r ← modelGenerate a prompt;
  match r with
  | Err err => ret (Err ("推理失败: " +:+ err))
  | Ok response => ret (Ok response)
  end.

Definition executeStep (a : Agent) (step : PlanStep) : M (res string) :=
  if String.eqb (Action step) "search_tool" then executeToolStep a step
  else if String.eqb (Action step) "rag_search" then executeRAGStep a step
  else if String.eqb (Action step) "reason" then executeReasonStep a step
  else ret (Err ("未知的执行动作: " +:+ Action step)).

(** *** Recovery *)

Definition generateAlternativeInputs (step : PlanStep) (history : list string)
  : list string :=
  match param (Parameters step) "input" with
  | Some (VString input) =>
      [input] ++
      (match history with
       | [] => []
       | _ => [input +:+ " 基于之前的执行结果"; input +:+ " 结合历史信息"]
       end)
  | _ => []
  end.

Definition generateAlternativeQueries (query : string) (history : list string)
  : list string :=
  [query]
  ++ (if (10 <? len query)%Z then [slice query 0 (len query - 5)] else [])
  ++ (match last history with
      | None => []
      | Some lastResult =>
          match Fields lastResult with
          | [] => []
          | word :: _ => [query +:+ " " +:+ word]
          end
      end).

(** The loop of [recoverToolError] over the alternative inputs. *)
Fixpoint tryInputs (tm : Manager) (toolName : string) (inputs : list string)
  : M (res string) :=
  match inputs with
  | [] => ret (Err "所有替代方案都失败")
  | input :: rest =>
      r ← managerExecuteTool tm toolName input;
      match r with
      | Ok result => ret (Ok result)
      | Err _ => tryInputs tm toolName rest
      end
  end.

Definition recoverToolError (a : Agent) (step : PlanStep) (history : list string)
  : M (res string) :=
  match toolManager a with
  | None => ret (Err "工具管理器未配置，无法恢复")
  | Some tm =>
      toolName ← assertString (param (Parameters step) "tool_name");
      tryInputs tm toolName (generateAlternativeInputs step history)
  end.

(** The loop of [recoverRAGError] over the alternative queries. *)
Fixpoint tryQueries (e : Engine) (queries : list string) : M (res string) :=
  match queries with
  | [] => ret (Err "所有替代查询都失败")
  | altQuery :: rest =>
      r ← engineSearch e altQuery 3;
      match r with
      | Ok (result :: results) => ret (Ok (formatRAGResults (result :: results)))
      | _ => tryQueries e rest
      end
  end.

Definition recoverRAGError (a : Agent) (step : PlanStep) (history : list string)
  : M (res string) :=
  match ragEngine a with
  | None => ret (Err "RAG引擎未配置，无法恢复")
  | Some e =>
      query ← assertString (param (Parameters step) "query");
      tryQueries e (generateAlternativeQueries query history)
  end.

Definition recoverReasonError (a : Agent) (step : PlanStep) (history : list string)
  : M (res string) :=
  originalPrompt ← assertString (param (Parameters step) "prompt");
  let recoveryPrompt :=
    "之前的推理过程出现了问题，请基于以下历史信息重新思考：" +:+ String "010" (String "010" EmptyString)
    +:+ "历史执行结果: " +:+ Join history "; " +:+ String "010" (String "010" EmptyString)
    +:+ "原始问题: " +:+ originalPrompt +:+ String "010" (String "010" EmptyString)
    +:+ "请重新分析并给出合理的回答。" in
  r ← modelGenerate a recoveryPrompt;
  match r with
  | Err err => ret (Err ("恢复推理失败: " +:+ err))
  | Ok response => ret (Ok response)
  end.

Definition defaultRecovery (a : Agent) (step : PlanStep) (history : list string)
    (errorMsg : string) : M (res string) :=
  let recoveryPrompt :=
    "执行过程中遇到错误: " +:+ errorMsg +:+ String "010" (String "010" EmptyString)
    +:+ "历史执行情况: " +:+ Join history "; " +:+ String "010" (String "010" EmptyString)
    +:+ "请基于现有信息给出一个合理的回答或解决方案。" in
  r ← modelGenerate a recoveryPrompt;
  match r with
  | Err err => ret (Err ("默认恢复策略失败: " +:+ err))
  | Ok response => ret (Ok response)
  end.

Definition recoverFromError (a : Agent) (step : PlanStep) (err : error)
    (history : list string) : M (res string) :=
  let errorMsg := err in
  if String.eqb (Action step) "search_tool" && Contains errorMsg "工具调用失败"
  then recoverToolError a step history
  else if String.eqb (Action step) "rag_search" && Contains errorMsg "RAG检索失败"
  then recoverRAGError a step history
  else if String.eqb (Action step) "reason" && Contains errorMsg "推理失败"
  then recoverReasonError a step history
  else defaultRecovery a step history errorMsg.

(** *** The Execute phase *)

(** The loop of [execute] from the step of index [i]; [steps] are the steps
    from that index on, so that [i < len(plan.Steps)-1] is [steps] having a
    successor of its head. *)
Fixpoint executeFrom (a : Agent) (i : Z) (steps : list (option PlanStep))
    (result : string) (shouldContinue : bool) (executionHistory : list string)
  : M (res (string * bool)) :=
  match steps with
  | [] => ret (Ok (result, shouldContinue))
  | stepPtr :: rest =>
      step ← deref stepPtr;
      sendEvent a ("step_" +:+ itoa (i + 1) +:+ "_start") StatusExecuting
        ("执行步骤 " +:+ itoa (i + 1) +:+ ": " +:+ Action step) (DataStep step);;
      r ← executeStep a step;
      s ← match r with
          | Ok stepResult => ret (Ok stepResult)
          | Err err =>
              let errorMsg := "执行步骤 " +:+ itoa (i + 1) +:+ "失败: " +:+ err in
              sendEvent a ("step_" +:+ itoa (i + 1) +:+ "_error") StatusError
                errorMsg DataNil;;
              rr ← recoverFromError a step err executionHistory;
              match rr with
              | Ok recoveredResult =>
                  sendEvent a ("step_" +:+ itoa (i + 1) +:+ "_recovered")
                    StatusExecuting "步骤执行已恢复" (DataString recoveredResult);;
                  ret (Ok recoveredResult)
              | Err recoverErr =>
                  ret (Err (errorMsg +:+ "，恢复失败: " +:+ recoverErr))
              end
          end;
      match s with
      | Err e => ret (Err e)
      | Ok stepResult =>
          let result := stepResult in
          let executionHistory := executionHistory ++ [result] in
          let shouldContinue := ShouldContinue step in
          sendEvent a ("step_" +:+ itoa (i + 1) +:+ "_complete") StatusExecuting
            ("步骤 " +:+ itoa (i + 1) +:+ "完成")
            (DataStepResult stepResult shouldContinue);;
          if shouldContinue && negb (bool_decide (rest = []))
          then executeFrom a (i + 1) rest result shouldContinue executionHistory
          else ret (Ok (result, shouldContinue))
      end
  end.

Definition execute (a : Agent) (plan : ExecutionPlan) : M (res (string * bool)) :=
  executeFrom a 0 (Steps plan) EmptyString false [].

(** *** The loop and the entry point *)

Section WithJson.
Context `{Json}.

(** The loop of [thinkExecuteLoop] with [n] passes left, [iteration] passes
    done. *)
Fixpoint thinkExecuteLoopFrom (a : Agent) (n : nat) (iteration : Z)
    (currentQuery : string) : M (res string) :=
  match n with
  | O => ret (Err ("超过最大迭代次数 " +:+ itoa (MaxIterations (config a))))
  | S n' =>
      let iteration := (iteration + 1)%Z in
      sendEvent a ("think_" +:+ itoa iteration) StatusThinking
        ("第 " +:+ itoa iteration +:+ "中...") DataNil;;
      p ← think a currentQuery iteration;
      match p with
      | Err err => ret (Err ("思考阶段出错: " +:+ err))
      | Ok plan =>
          sendEvent a ("plan_" +:+ itoa iteration) StatusPlanning
            "制定执行计划" (DataPlan plan);;
          sendEvent a ("execute_" +:+ itoa iteration) StatusExecuting
            "执行计划中..." (DataPlan plan);;
          x ← execute a plan;
          match x with
          | Err err => ret (Err ("执行阶段出错: " +:+ err))
          | Ok (result, shouldContinue) =>
              if negb shouldContinue then ret (Ok result)
              else thinkExecuteLoopFrom a n' iteration result
          end
      end
  end.

Definition thinkExecuteLoop (a : Agent) (query : string) : M (res string) :=
  thinkExecuteLoopFrom a (Z.to_nat (MaxIterations (config a))) 0 query.

Definition Execute (a : Agent) (query : string) : M (res string) :=
  match model a with
  | None => ret (Err "model not configured")
  | Some _ =>
      sendEvent a "start" StatusThinking "开始处理请求" DataNil;;
      r ← thinkExecuteLoop a query;
      match r with
      | Err err =>
          sendEvent a "error" StatusError ("执行出错: " +:+ err) DataNil;;
          ret (Err err)
      | Ok result =>
          sendEvent a "complete" StatusCompleted "任务完成" (DataResult result);;
          ret (Ok result)
      end
  end.

End WithJson.

End Core.

(** ** The [sse] package: client queues and the broker *)

Module Sse.

Section WithData.

(** The payload of an event, an [interface{}] in the source, and
    [json.Marshal] on it. *)
Context {D : Type} (Marshal : D -> res string).

Record Event : Type := mkEvent {
  EventID : string;
  EventName : string;
  Data : D;
  Retry : Z
}.

(** [Client]: the buffered channel [events] with its content, oldest first,
    and whether each of the two channels has been closed. *)
Record Client : Type := mkClient {
  ID : string;
  events : list string;
  doneClosed : bool;
  eventsClosed : bool
}.

Definition clientCapacity : nat := 100.
Definition eventsCapacity : nat := 1000.
Definition registerCapacity : nat := 10.
Definition unregisterCapacity : nat := 10.

Definition NewClient (id : string) : Client :=
  {| ID := id; events := []; doneClosed := false; eventsClosed := false |}.

(** [Client.Send].  The [select] has the case [c.events <- event], ready
    when the buffer has room or the channel is closed (the send then
    panics), the case [<-c.done], ready once [done] is closed, and a
    default.  [pick] is the choice the runtime makes when both cases are
    ready: [true] for the send. *)
Definition Send (pick : bool) (event : string) (c : Client) : outcome (Client * bool) :=
  let sendReady := eventsClosed c || (length (events c) <? clientCapacity)%nat in
  let doneReady := doneClosed c in
  if sendReady && (negb doneReady || pick) then
    if eventsClosed c then Panic "send on closed channel"
    else Ret ({| ID := ID c; events := events c ++ [event];
                 doneClosed := doneClosed c; eventsClosed := eventsClosed c |}, true)
  else if doneReady then Ret (c, false)
  else Ret (c, false).

(** [Client.Close]. *)
Definition Close (c : Client) : outcome Client :=
  if doneClosed c || eventsClosed c then Panic "close of closed channel"
  else Ret {| ID := ID c; events := events c;
              doneClosed := true; eventsClosed := true |}.

(** [splitLines]: the non-empty lines of [s]. *)
Fixpoint splitLinesFrom (s : string) (line : string) : list string :=
  match s with
  | EmptyString => if isEmpty line then [] else [line]
  | String c s' =>
      if Ascii.eqb c "010"%char
      then (if isEmpty line then splitLinesFrom s' EmptyString
            else line :: splitLinesFrom s' EmptyString)
      else splitLinesFrom s' (line +:+ String c EmptyString)
  end.

Definition splitLines (s : string) : list string := splitLinesFrom s EmptyString.

Definition newline : string := String "010" EmptyString.

Definition serializeEvent (event : Event) : res string :=
  let sseData := EmptyString in
  let sseData :=
    if negb (isEmpty (EventID event))
    then sseData +:+ "id: " +:+ EventID event +:+ newline else sseData in
  let sseData :=
    if negb (isEmpty (EventName event))
    then sseData +:+ "event: " +:+ EventName event +:+ newline else sseData in
  match Marshal (Data event) with
  | Err err => Err ("序列化事件数据失败: " +:+ err)
  | Ok jsonData =>
      let sseData :=
        fold_left (fun acc line => acc +:+ "data: " +:+ line +:+ newline)
                  (splitLines jsonData) sseData in
      let sseData :=
        if (0 <? Retry event)%Z
        then sseData +:+ "retry: " +:+ itoa (Retry event) +:+ newline else sseData in
      Ok (sseData +:+ newline)
  end.

(** [Broker].  Clients are objects on a heap, the map [clients] holds their
    addresses; the channels hold their content, oldest first; [goroutines]
    are the [go c.Send(eventBytes)] calls started and not yet run;
    [stopped] tells that [run] has returned. *)
Record Broker : Type := mkBroker {
  heap : gmap nat Client;
  clients : gmap string nat;
  eventQueue : list Event;
  register : list nat;
  unregister : list string;
  stop : bool;
  goroutines : list (nat * string);
  stopped : bool
}.

Definition NewBroker : Broker :=
  {| heap := ∅; clients := ∅; eventQueue := []; register := [];
     unregister := []; stop := false; goroutines := []; stopped := false |}.

Definition withHeap (b : Broker) (h : gmap nat Client) : Broker :=
  {| heap := h; clients := clients b; eventQueue := eventQueue b;
     register := register b; unregister := unregister b; stop := stop b;
     goroutines := goroutines b; stopped := stopped b |}.

Definition withGoroutines (b : Broker) (g : list (nat * string)) : Broker :=
  {| heap := heap b; clients := clients b; eventQueue := eventQueue b;
     register := register b; unregister := unregister b; stop := stop b;
     goroutines := g; stopped := stopped b |}.

(** [Broker.Broadcast]; [id] is the value of [generateEventID()].  The
    event is dropped when the channel of the broker is full. *)
Definition Broadcast (id eventType : string) (data : D) (b : Broker) : Broker :=
  let event := {| EventID := id; EventName := eventType; Data := data; Retry := 5000 |} in
  if (length (eventQueue b) <? eventsCapacity)%nat then
    {| heap := heap b; clients := clients b;
       eventQueue := eventQueue b ++ [event];
       register := register b; unregister := unregister b; stop := stop b;
       goroutines := goroutines b; stopped := stopped b |}
  else b.

(** The cases of the [select] of [Broker.run], each on a channel that is
    ready. *)
Definition runRegister (p : nat) (rest : list nat) (b : Broker) : outcome Broker :=
  match heap b !! p with
  | None => Panic nilDereference
  | Some client =>
      Ret {| heap := heap b; clients := <[ID client := p]> (clients b);
             eventQueue := eventQueue b; register := rest;
             unregister := unregister b; stop := stop b;
             goroutines := goroutines b; stopped := stopped b |}
  end.

Definition runUnregister (clientID : string) (rest : list string) (b : Broker)
  : outcome Broker :=
  match clients b !! clientID with
  | None =>
      Ret {| heap := heap b; clients := clients b;
             eventQueue := eventQueue b; register := register b;
             unregister := rest; stop := stop b;
             goroutines := goroutines b; stopped := stopped b |}
  | Some p =>
      match heap b !! p with
      | None => Panic nilDereference
      | Some client =>
          match Close client with
          | Panic msg => Panic msg
          | Ret client' =>
              Ret {| heap := <[p := client']> (heap b);
                     clients := delete clientID (clients b);
                     eventQueue := eventQueue b; register := register b;
                     unregister := rest; stop := stop b;
                     goroutines := goroutines b; stopped := stopped b |}
          end
      end
  end.

(** The event case: one goroutine per client of the map. *)
Definition runEvent (event : Event) (rest : list Event) (b : Broker) : Broker :=
  let spawned :=
    match serializeEvent event with
    | Err _ => []
    | Ok eventBytes => map (fun ip => (snd ip, eventBytes)) (map_to_list (clients b))
    end in
  {| heap := heap b; clients := clients b; eventQueue := rest;
     register := register b; unregister := unregister b; stop := stop b;
     goroutines := goroutines b ++ spawned; stopped := stopped b |}.

Fixpoint closeAll (ps : list nat) (h : gmap nat Client) : outcome (gmap nat Client) :=
  match ps with
  | [] => Ret h
  | p :: rest =>
      match h !! p with
      | None => Panic nilDereference
      | Some client =>
          match Close client with
          | Panic msg => Panic msg
          | Ret client' => closeAll rest (<[p := client']> h)
          end
      end
  end.

Definition runStop (b : Broker) : outcome Broker :=
  match closeAll (map snd (map_to_list (clients b))) (heap b) with
  | Panic msg => Panic msg
  | Ret h =>
      Ret {| heap := h; clients := ∅; eventQueue := eventQueue b;
             register := register b; unregister := unregister b; stop := stop b;
             goroutines := goroutines b; stopped := true |}
  end.

(** One goroutine [c.Send(eventBytes)] on the client at address [p]. *)
Definition goSend (pick : bool) (p : nat) (eventBytes : string) (b : Broker)
  : outcome (Broker * bool) :=
  match heap b !! p with
  | None => Panic nilDereference
  | Some client =>
      match Send pick eventBytes client with
      | Panic msg => Panic msg
      | Ret (client', ok) => Ret (withHeap b (<[p := client']> (heap b)), ok)
      end
  end.

(** [Broker.SendTo]; [id] is the value of [generateEventID()]. *)
Definition SendTo (pick : bool) (clientID id eventType : string) (data : D)
    (b : Broker) : outcome (Broker * bool) :=
  match clients b !! clientID with
  | None => Ret (b, false)
  | Some p =>
      let event := {| EventID := id; EventName := eventType; Data := data; Retry := 0 |} in
      match serializeEvent event with
      | Err _ => Ret (b, false)
      | Ok eventBytes => goSend pick p eventBytes b
      end
  end.

(** What the broker and the goroutines around it do, one step at a time. *)
Inductive Label : Type :=
| LSubscribe (clientID : string) (p : nat)
| LRegister (p : nat)
| LRequestUnregister (clientID : string)
| LUnregister (clientID : string)
| LBroadcast (id eventType : string) (data : D)
| LDispatch (event : Event)
| LSend (p : nat) (eventBytes : string) (ok : bool)
| LReceive (p : nat) (eventBytes : string)
| LClose
| LStop.

Inductive step : Broker -> Label -> Broker -> Prop :=
(* Subscribe: NewClient and b.register <- client *)
| step_subscribe b clientID p :
    heap b !! p = None ->
    (length (register b) < registerCapacity)%nat ->
    step b (LSubscribe clientID p)
      {| heap := <[p := NewClient clientID]> (heap b); clients := clients b;
         eventQueue := eventQueue b; register := register b ++ [p];
         unregister := unregister b; stop := stop b;
         goroutines := goroutines b; stopped := stopped b |}
(* Subscribe: b.unregister <- clientID *)
| step_request_unregister b clientID :
    (length (unregister b) < unregisterCapacity)%nat ->
    step b (LRequestUnregister clientID)
      {| heap := heap b; clients := clients b;
         eventQueue := eventQueue b; register := register b;
         unregister := unregister b ++ [clientID]; stop := stop b;
         goroutines := goroutines b; stopped := stopped b |}
(* Subscribe: event := <-client.events *)
| step_receive b p client eventBytes rest :
    heap b !! p = Some client ->
    events client = eventBytes :: rest ->
    step b (LReceive p eventBytes)
      (withHeap b (<[p := {| ID := ID client; events := rest;
                             doneClosed := doneClosed client;
                             eventsClosed := eventsClosed client |}]> (heap b)))
(* Broadcast *)
| step_broadcast b id eventType data :
    step b (LBroadcast id eventType data) (Broadcast id eventType data b)
(* Close: close(b.stop) *)
| step_close b :
    stop b = false ->
    step b LClose
      {| heap := heap b; clients := clients b;
         eventQueue := eventQueue b; register := register b;
         unregister := unregister b; stop := true;
         goroutines := goroutines b; stopped := stopped b |}
(* run: the four cases of the select *)
| step_register b p rest b' :
    stopped b = false ->
    register b = p :: rest ->
    runRegister p rest b = Ret b' ->
    step b (LRegister p) b'
| step_unregister b clientID rest b' :
    stopped b = false ->
    unregister b = clientID :: rest ->
    runUnregister clientID rest b = Ret b' ->
    step b (LUnregister clientID) b'
| step_dispatch b event rest :
    stopped b = false ->
    eventQueue b = event :: rest ->
    step b (LDispatch event) (runEvent event rest b)
| step_stop b b' :
    stopped b = false ->
    stop b = true ->
    runStop b = Ret b' ->
    step b LStop b'
(* SendTo, on a client of the map *)
| step_send_to b pick clientID id eventType data p eventBytes b' ok :
    clients b !! clientID = Some p ->
    serializeEvent {| EventID := id; EventName := eventType; Data := data; Retry := 0 |}
      = Ok eventBytes ->
    SendTo pick clientID id eventType data b = Ret (b', ok) ->
    step b (LSend p eventBytes ok) b'
(* one of the goroutines started by run *)
| step_send b g1 g2 p eventBytes pick b' ok :
    goroutines b = g1 ++ (p, eventBytes) :: g2 ->
    goSend pick p eventBytes (withGoroutines b (g1 ++ g2)) = Ret (b', ok) ->
    step b (LSend p eventBytes ok) b'.

(** The runs of the broker, with what happened, oldest first. *)
Inductive run : Broker -> list Label -> Broker -> Prop :=
| run_nil b : run b [] b
| run_snoc b trace b' l b'' :
    run b trace b' -> step b' l b'' -> run b (trace ++ [l]) b''.

(** What a client was given by successful sends, and what its subscriber
    has received, in a trace. *)
Definition enqueuedOf (p : nat) (l : Label) : list string :=
  match l with
  | LSend q eventBytes true => if decide (q = p) then [eventBytes] else []
  | _ => []
  end.

Definition receivedOf (p : nat) (l : Label) : list string :=
  match l with
  | LReceive q eventBytes => if decide (q = p) then [eventBytes] else []
  | _ => []
  end.

Definition enqueued (p : nat) (trace : list Label) : list string :=
  concat (map (enqueuedOf p) trace).

Definition received (p : nat) (trace : list Label) : list string :=
  concat (map (receivedOf p) trace).

(** The payloads published in a trace, in order. *)
Definition publishedOf (l : Label) : list D :=
  match l with
  | LBroadcast _ _ data => [data]
  | _ => []
  end.

Definition published (trace : list Label) : list D :=
  concat (map publishedOf trace).

End WithData.

End Sse.

(** ** A reference decoder for [json.Unmarshal] into an [ExecutionPlan]

    Modelled on the documentation of [encoding/json], for texts in valid
    UTF-8: white space around the document is ignored, a text that is not
    JSON leaves the target untouched, object keys are matched to the [json]
    tags exactly or else without regard to ASCII case, unknown keys are
    skipped, [null] leaves a field as it is, a value of the wrong kind is
    skipped and the first such mismatch is the error returned.  Numbers are
    rounded to the nearest [float64] within the normal range. *)

Module RefJson.

Inductive JSON : Type :=
| JNull
| JBool (b : bool)
| JNumber (f : float)
| JString (s : string)
| JArray (l : list JSON)
| JObject (members : list (string * JSON)).

Definition isJsonSpace (c : ascii) : bool :=
  let n := nat_of_ascii c in
  (n =? 32)%nat || (n =? 9)%nat || (n =? 10)%nat || (n =? 13)%nat.

Fixpoint skipWs (s : string) : string :=
  match s with
  | String c s' => if isJsonSpace c then skipWs s' else s
  | EmptyString => EmptyString
  end.

Fixpoint trimRight (s : string) : string :=
  match s with
  | EmptyString => EmptyString
  | String c s' =>
      match trimRight s' with
      | EmptyString => if isJsonSpace c then EmptyString else String c EmptyString
      | t => String c t
      end
  end.

(** *** Strings *)

Definition hexVal (c : ascii) : option Z :=
  let n := Z.of_nat (nat_of_ascii c) in
  if (48 <=? n)%Z && (n <=? 57)%Z then Some (n - 48)%Z
  else if (97 <=? n)%Z && (n <=? 102)%Z then Some (n - 87)%Z
  else if (65 <=? n)%Z && (n <=? 70)%Z then Some (n - 55)%Z
  else None.

Definition hex4 (s : string) : option (Z * string) :=
  match s with
  | String a (String b (String c (String d rest))) =>
      match hexVal a, hexVal b, hexVal c, hexVal d with
      | Some x, Some y, Some z, Some w =>
          Some ((((x * 16 + y) * 16 + z) * 16 + w)%Z, rest)
      | _, _, _, _ => None
      end
  | _ => None
  end.

Definition byte (n : Z) : string := String (ascii_of_nat (Z.to_nat n)) EmptyString.

(** The UTF-8 encoding of a code point. *)
Definition utf8 (cp : Z) : string :=
  if (cp <? 128)%Z then byte cp
  else if (cp <? 2048)%Z then
    byte (192 + cp / 64) +:+ byte (128 + cp mod 64)
  else if (cp <? 65536)%Z then
    byte (224 + cp / 4096) +:+ byte (128 + (cp / 64) mod 64) +:+ byte (128 + cp mod 64)
  else
    byte (240 + cp / 262144) +:+ byte (128 + (cp / 4096) mod 64)
      +:+ byte (128 + (cp / 64) mod 64) +:+ byte (128 + cp mod 64).

Definition replacementChar : Z := 65533.

Definition isHighSurrogate (cp : Z) : bool := (55296 <=? cp)%Z && (cp <? 56320)%Z.
Definition isLowSurrogate (cp : Z) : bool := (56320 <=? cp)%Z && (cp <? 57344)%Z.

(** What follows a [\u]: the code point, a surrogate pair taken together. *)
Definition unicodeEscape (s : string) : option (string * string) :=
  match hex4 s with
  | None => None
  | Some (cp, rest) =>
      if isHighSurrogate cp then
        match rest with
        | String "\" (String "u" rest') =>
            match hex4 rest' with
            | Some (lo, rest'') =>
                if isLowSurrogate lo
                then Some (utf8 (65536 + (cp - 55296) * 1024 + (lo - 56320)), rest'')
                else Some (utf8 replacementChar, rest)
            | None => Some (utf8 replacementChar, rest)
            end
        | _ => Some (utf8 replacementChar, rest)
        end
      else if isLowSurrogate cp then Some (utf8 replacementChar, rest)
      else Some (utf8 cp, rest)
  end.

(** The body of a string, after its opening quote. *)
Fixpoint parseStringBody (fuel : nat) (s : string) (acc : string)
  : option (string * string) :=
  match fuel with
  | O => None
  | S fuel =>
      match s with
      | EmptyString => None
      | String c s' =>
          if Ascii.eqb c dquote then Some (acc, s')
          else if Ascii.eqb c "\" then
            match s' with
            | EmptyString => None
            | String e s'' =>
                let plain (x : string) := parseStringBody fuel s'' (acc +:+ x) in
                if Ascii.eqb e dquote then plain (String dquote EmptyString)
                else if Ascii.eqb e "\" then plain "\"
                else if Ascii.eqb e "/" then plain "/"
                else if Ascii.eqb e "b" then plain (byte 8)
                else if Ascii.eqb e "f" then plain (byte 12)
                else if Ascii.eqb e "n" then plain (byte 10)
                else if Ascii.eqb e "r" then plain (byte 13)
                else if Ascii.eqb e "t" then plain (byte 9)
                else if Ascii.eqb e "u" then
                  match unicodeEscape s'' with
                  | None => None
                  | Some (x, rest) => parseStringBody fuel rest (acc +:+ x)
                  end
                else None
            end
          else if (nat_of_ascii c <? 32)%nat then None
          else parseStringBody fuel s' (acc +:+ String c EmptyString)
      end
  end.

(** *** Numbers *)

Definition isDigit (c : ascii) : bool :=
  let n := nat_of_ascii c in (48 <=? n)%nat && (n <=? 57)%nat.

(** The digits at the head of [s], appended to [acc]; their count. *)
Fixpoint digits (s : string) (acc : Z) (count : Z) : Z * Z * string :=
  match s with
  | String c s' =>
      if isDigit c
      then digits s' (acc * 10 + Z.of_nat (nat_of_ascii c) - 48)%Z (count + 1)%Z
      else (acc, count, s)
  | EmptyString => (acc, count, s)
  end.

(** The [float64] nearest to [n/d], for [0 < n] and [0 < d]. *)
Definition floatOfRatio (n d : Z) : float :=
  let scaled (e : Z) : Z * Z :=
    if (0 <=? e)%Z then (n, d * 2 ^ e)%Z else (n * 2 ^ (- e), d)%Z in
  let e0 := (Z.log2 n - Z.log2 d - 53)%Z in
  let e :=
    let '(a, b) := scaled e0 in
    if (2 ^ 53 <=? a / b)%Z then (e0 + 1)%Z else e0 in
  let '(a, b) := scaled e in
  let q := (a / b)%Z in
  let r := (a mod b)%Z in
  let q :=
    if (b <? 2 * r)%Z then (q + 1)%Z
    else if (2 * r =? b)%Z && Z.odd q then (q + 1)%Z
    else q in
  Z.ldexp (PrimFloat.of_uint63 (Uint63.of_Z q)) e.

Definition floatOfDecimal (negative : bool) (m e10 : Z) : float :=
  let f :=
    if (m =? 0)%Z then 0%float
    else if (0 <=? e10)%Z then floatOfRatio (m * 10 ^ e10) 1
    else floatOfRatio m (10 ^ (- e10)) in
  if negative then (- f)%float else f.

Definition parseNumber (s : string) : option (float * string) :=
  let '(negative, s) :=
    match s with
    | String "-" s' => (true, s')
    | _ => (false, s)
    end in
  let '(m, count, rest) := digits s 0 0 in
  let leadingZero :=
    match s with
    | String "0" _ => (1 <? count)%Z
    | _ => false
    end in
  if (count =? 0)%Z || leadingZero then None
  else
    let fraction :=
      match rest with
      | String "." rest' =>
          let '(m', count', rest'') := digits rest' m 0 in
          if (count' =? 0)%Z then None else Some (m', count', rest'')
      | _ => Some (m, 0%Z, rest)
      end in
    match fraction with
    | None => None
    | Some (m, fracDigits, rest) =>
        let exponent :=
          match rest with
          | String c rest' =>
              if Ascii.eqb c "e" || Ascii.eqb c "E" then
                let '(negExp, rest'') :=
                  match rest' with
                  | String "-" r => (true, r)
                  | String "+" r => (false, r)
                  | _ => (false, rest')
                  end in
                let '(x, count'', rest''') := digits rest'' 0 0 in
                if (count'' =? 0)%Z then None
                else Some ((if negExp then - x else x)%Z, rest''')
              else Some (0%Z, rest)
          | EmptyString => Some (0%Z, rest)
          end in
        match exponent with
        | None => None
        | Some (x, rest) => Some (floatOfDecimal negative m (x - fracDigits), rest)
        end
    end.

(** *** Values *)

Fixpoint parseValue (fuel : nat) (s : string) : option (JSON * string) :=
  match fuel with
  | O => None
  | S fuel =>
      match skipWs s with
      | EmptyString => None
      | String c rest as s1 =>
          if Ascii.eqb c "{" then
            match skipWs rest with
            | String "}" rest' => Some (JObject [], rest')
            | _ =>
                match parseMembers fuel rest with
                | Some (members, rest') => Some (JObject members, rest')
                | None => None
                end
            end
          else if Ascii.eqb c "[" then
            match skipWs rest with
            | String "]" rest' => Some (JArray [], rest')
            | _ =>
                match parseElements fuel rest with
                | Some (l, rest') => Some (JArray l, rest')
                | None => None
                end
            end
          else if Ascii.eqb c dquote then
            match parseStringBody (String.length rest) rest EmptyString with
            | Some (x, rest') => Some (JString x, rest')
            | None => None
            end
          else if String.prefix "true" s1 then
            Some (JBool true, String.substring 4 (String.length s1 - 4) s1)
          else if String.prefix "false" s1 then
            Some (JBool false, String.substring 5 (String.length s1 - 5) s1)
          else if String.prefix "null" s1 then
            Some (JNull, String.substring 4 (String.length s1 - 4) s1)
          else
            match parseNumber s1 with
            | Some (f, rest') => Some (JNumber f, rest')
            | None => None
            end
      end
  end

(** The elements of an array, up to its closing bracket. *)
with parseElements (fuel : nat) (s : string) : option (list JSON * string) :=
  match fuel with
  | O => None
  | S fuel =>
      match parseValue fuel s with
      | None => None
      | Some (v, rest) =>
          match skipWs rest with
          | String "]" rest' => Some ([v], rest')
          | String "," rest' =>
              match parseElements fuel rest' with
              | Some (l, rest'') => Some (v :: l, rest'')
              | None => None
              end
          | _ => None
          end
      end
  end

(** The members of an object, up to its closing brace. *)
with parseMembers (fuel : nat) (s : string)
  : option (list (string * JSON) * string) :=
  match fuel with
  | O => None
  | S fuel =>
      match skipWs s with
      | String c rest =>
          if Ascii.eqb c dquote then
            match parseStringBody (String.length rest) rest EmptyString with
            | None => None
            | Some (key, rest1) =>
                match skipWs rest1 with
                | String ":" rest2 =>
                    match parseValue fuel rest2 with
                    | None => None
                    | Some (v, rest3) =>
                        match skipWs rest3 with
                        | String "}" rest4 => Some ([(key, v)], rest4)
                        | String "," rest4 =>
                            match parseMembers fuel rest4 with
                            | Some (members, rest5) => Some ((key, v) :: members, rest5)
                            | None => None
                            end
                        | _ => None
                        end
                    end
                | _ => None
                end
            end
          else None
      | EmptyString => None
      end
  end.

(** A whole document: one value and nothing after it. *)
Definition parseDocument (data : string) : option JSON :=
  let s := skipWs (trimRight data) in
  match parseValue (S (2 * String.length s)) s with
  | Some (v, EmptyString) => Some v
  | _ => None
  end.

(** *** Decoding *)

(** A value stored in an [interface{}]; in an object the last of the
    members of one key stays. *)
Fixpoint toValue (j : JSON) : Value :=
  match j with
  | JNull => VNil
  | JBool b => VBool b
  | JNumber f => VNumber f
  | JString s => VString s
  | JArray l => VArray (map toValue l)
  | JObject members =>
      VObject (fold_left (fun m kv => <[fst kv := toValue (snd kv)]> m) members ∅)
  end.

Definition kindName (j : JSON) : string :=
  match j with
  | JNull => "null"
  | JBool _ => "bool"
  | JNumber _ => "number"
  | JString _ => "string"
  | JArray _ => "array"
  | JObject _ => "object"
  end.

Definition typeError (j : JSON) (target : string) : error :=
  "json: cannot unmarshal " +:+ kindName j +:+ " into Go value of type " +:+ target.

(** The first error stays. *)
Definition firstError (e1 e2 : option error) : option error :=
  match e1 with
  | Some e => Some e
  | None => e2
  end.

(** Does [key] name the field tagged [tag]? *)
Definition keyIs (tag key : string) : bool :=
  String.eqb key tag || String.eqb (ToLower key) (ToLower tag).

Definition decodeStepField (acc : PlanStep * option error) (kv : string * JSON)
  : PlanStep * option error :=
  let '(step, e) := acc in
  let '(key, j) := kv in
  if keyIs "action" key then
    match j with
    | JString s =>
        ({| Action := s; Parameters := Parameters step;
            ShouldContinue := ShouldContinue step |}, e)
    | JNull => (step, e)
    | _ => (step, firstError e (Some (typeError j "string")))
    end
  else if keyIs "parameters" key then
    match j with
    | JObject members =>
        let m0 := match Parameters step with Some m => m | None => ∅ end in
        ({| Action := Action step;
            Parameters :=
              Some (fold_left (fun m kv => <[fst kv := toValue (snd kv)]> m) members m0);
            ShouldContinue := ShouldContinue step |}, e)
    | JNull =>
        ({| Action := Action step; Parameters := None;
            ShouldContinue := ShouldContinue step |}, e)
    | _ => (step, firstError e (Some (typeError j "map[string]interface {}")))
    end
  else if keyIs "should_continue" key then
    match j with
    | JBool b =>
        ({| Action := Action step; Parameters := Parameters step;
            ShouldContinue := b |}, e)
    | JNull => (step, e)
    | _ => (step, firstError e (Some (typeError j "bool")))
    end
  else (step, e).

Definition zeroStep : PlanStep :=
  {| Action := EmptyString; Parameters := None; ShouldContinue := false |}.

(** An element of [steps]: a pointer to a new step, nil for [null]. *)
Definition decodeStep (j : JSON) : option PlanStep * option error :=
  match j with
  | JNull => (None, None)
  | JObject members =>
      let '(step, e) := fold_left decodeStepField members (zeroStep, None) in
      (Some step, e)
  | _ => (Some zeroStep, Some (typeError j "core.PlanStep"))
  end.

Definition decodeSteps (l : list JSON) : list (option PlanStep) * option error :=
  fold_left
    (fun acc j =>
       let '(steps, e) := acc in
       let '(step, e') := decodeStep j in
       (steps ++ [step], firstError e e'))
    l ([], None).

Definition decodePlanField (acc : ExecutionPlan * option error) (kv : string * JSON)
  : ExecutionPlan * option error :=
  let '(plan, e) := acc in
  let '(key, j) := kv in
  if keyIs "thought" key then
    match j with
    | JString s => ({| Thought := s; Steps := Steps plan |}, e)
    | JNull => (plan, e)
    | _ => (plan, firstError e (Some (typeError j "string")))
    end
  else if keyIs "steps" key then
    match j with
    | JArray l =>
        let '(steps, e') := decodeSteps l in
        ({| Thought := Thought plan; Steps := steps |}, firstError e e')
    | JNull => ({| Thought := Thought plan; Steps := [] |}, e)
    | _ => (plan, firstError e (Some (typeError j "[]*core.PlanStep")))
    end
  else (plan, e).

Definition decodePlan (j : JSON) (plan : ExecutionPlan)
  : ExecutionPlan * option error :=
  match j with
  | JNull => (plan, None)
  | JObject members => fold_left decodePlanField members (plan, None)
  | _ => (plan, Some (typeError j "core.ExecutionPlan"))
  end.

Definition Unmarshal (data : string) (plan : ExecutionPlan)
  : ExecutionPlan * option error :=
  match parseDocument data with
  | None => (plan, Some "invalid JSON text")
  | Some j => decodePlan j plan
  end.

#[export] Instance json : Plan.Json := {| Plan.Unmarshal := Unmarshal |}.

End RefJson.

(** ** Notions used to state the properties *)

Import Plan Core.

(** *** The relevance gate *)








(** *** Valid plans *)

(** A step with one of the three actions and the parameters it requires. *)
Definition validStep (step : PlanStep) : Prop :=
  exists ps, Parameters step = Some ps /\
    ((Action step = "search_tool" /\ is_Some (ps !! "tool_name") /\ is_Some (ps !! "input"))
     \/ (Action step = "rag_search" /\ is_Some (ps !! "query"))
     \/ (Action step = "reason" /\ is_Some (ps !! "prompt"))).

Definition validPlan (plan : ExecutionPlan) : Prop :=
  Thought plan <> EmptyString /\
  Steps plan <> [] /\
  Forall (fun s => exists step, s = Some step /\ validStep step) (Steps plan).

(** A plan whose only step is a reasoning step without its prompt, and the
    text a model would give for it. *)
Definition planMissingPrompt : ExecutionPlan :=
  {| Thought := "answer the question";
     Steps := [Some {| Action := "reason"; Parameters := Some ∅; ShouldContinue := false |}] |}.

Definition textMissingPrompt : string :=
  quoted "{'thought':'answer the question','steps':[{'action':'reason','parameters':{},'should_continue':false}]}".

(** *** The events of a run, and the worlds after them *)

Definition completedCount (l : list AgentEvent) : nat :=
  length (List.filter (fun e => bool_decide (Status e = StatusCompleted)) l).

Definition started (a : Agent) (w : World) : World :=
  snd (sendEvent a "start" StatusThinking "开始处理请求" DataNil w).

Definition completed (a : Agent) (result : string) (w : World) : World :=
  snd (sendEvent a "complete" StatusCompleted "任务完成" (DataResult result) w).

Definition failed (a : Agent) (err : error) (w : World) : World :=
  snd (sendEvent a "error" StatusError ("执行出错: " +:+ err) DataNil w).

Definition thinking (a : Agent) (iteration : Z) (w : World) : World :=
  snd (sendEvent a ("think_" +:+ itoa iteration) StatusThinking
         ("第 " +:+ itoa iteration +:+ "中...") DataNil w).

Definition planned (a : Agent) (iteration : Z) (plan : ExecutionPlan) (w : World) : World :=
  snd (sendEvent a ("execute_" +:+ itoa iteration) StatusExecuting
         "执行计划中..." (DataPlan plan)
         (snd (sendEvent a ("plan_" +:+ itoa iteration) StatusPlanning
                 "制定执行计划" (DataPlan plan) w))).

Definition stepStarted (a : Agent) (i : Z) (step : PlanStep) (w : World) : World :=
  snd (sendEvent a ("step_" +:+ itoa (i + 1) +:+ "_start") StatusExecuting
         ("执行步骤 " +:+ itoa (i + 1) +:+ ": " +:+ Action step) (DataStep step) w).

Definition stepError (i : Z) (err : error) : string :=
  "执行步骤 " +:+ itoa (i + 1) +:+ "失败: " +:+ err.

Definition stepFailed (a : Agent) (i : Z) (err : error) (w : World) : World :=
  snd (sendEvent a ("step_" +:+ itoa (i + 1) +:+ "_error") StatusError
         (stepError i err) DataNil w).

Definition stepRecovered (a : Agent) (i : Z) (result : string) (w : World) : World :=
  snd (sendEvent a ("step_" +:+ itoa (i + 1) +:+ "_recovered") StatusExecuting
         "步骤执行已恢复" (DataString result) w).

Definition stepCompleted (a : Agent) (i : Z) (result : string) (shouldContinue : bool)
    (w : World) : World :=
  snd (sendEvent a ("step_" +:+ itoa (i + 1) +:+ "_complete") StatusExecuting
         ("步骤 " +:+ itoa (i + 1) +:+ "完成") (DataStepResult result shouldContinue) w).

(** *** Where the loops stand *)

(** What the loop of [execute] does once a step has its result, its own or
    that of its recovery. *)
Definition afterStep (a : Agent) (i : Z) (step : PlanStep)
    (rest : list (option PlanStep)) (executionHistory : list string)
    (stepResult : string) (w : World) : outcome (res (string * bool)) * World :=
  if ShouldContinue step && negb (bool_decide (rest = []))
  then executeFrom a (i + 1) rest stepResult (ShouldContinue step)
         (executionHistory ++ [stepResult])
         (stepCompleted a i stepResult (ShouldContinue step) w)
  else (Ret (Ok (stepResult, ShouldContinue step)),
        stepCompleted a i stepResult (ShouldContinue step) w).

(** The step of index [i] yields [stepResult], by itself or by its recovery,
    and leaves the world [w']. *)
Inductive stepYields (a : Agent) (i : Z) (step : PlanStep)
    (executionHistory : list string) (w : World) (stepResult : string)
  : World -> Prop :=
| yields_directly w1 :
    executeStep a step (stepStarted a i step w) = (Ret (Ok stepResult), w1) ->
    stepYields a i step executionHistory w stepResult w1
| yields_by_recovery err w1 w2 :
    executeStep a step (stepStarted a i step w) = (Ret (Err err), w1) ->
    recoverFromError a step err executionHistory (stepFailed a i err w1)
      = (Ret (Ok stepResult), w2) ->
    stepYields a i step executionHistory w stepResult (stepRecovered a i stepResult w2).

(** The state of the loop of [execute]: the index, the steps from it on, the
    result and the flag so far, the history, the world. *)
Definition LoopState : Type :=
  Z * list (option PlanStep) * string * bool * list string * World.

(** The loop goes from one state to another by steps that yield a result and
    ask to continue. *)
Inductive stepsDone (a : Agent) : LoopState -> LoopState -> Prop :=
| stepsDone_none st : stepsDone a st st
| stepsDone_step i step rest result shouldContinue history w r w' st :
    stepYields a i step history w r w' ->
    ShouldContinue step = true ->
    rest <> [] ->
    stepsDone a (i + 1, rest, r, true, history ++ [r], stepCompleted a i r true w')%Z st ->
    stepsDone a (i, Some step :: rest, result, shouldContinue, history, w) st.

Definition startOfExecute (plan : ExecutionPlan) (w : World) : LoopState :=
  (0%Z, Steps plan, EmptyString, false, [], w).

(** The rest of the loop of [execute] from a state. *)
Definition runFrom (a : Agent) (st : LoopState) : outcome (res (string * bool)) * World :=
  let '(i, steps, result, shouldContinue, history, w) := st in
  executeFrom a i steps result shouldContinue history w.

Section WithJson.
Context `{Json}.

(** One pass of the loop of [thinkExecuteLoop]: the plan of the pass, then
    its result and flag, or the error the loop returns. *)
Definition pass (a : Agent) (currentQuery : string) (iteration : Z)
  : M (res (string * bool)) :=
  sendEvent a ("think_" +:+ itoa iteration) StatusThinking
    ("第 " +:+ itoa iteration +:+ "中...") DataNil;;
  p ← think a currentQuery iteration;
  match p with
  | Err err => ret (Err ("思考阶段出错: " +:+ err))
  | Ok plan =>
      sendEvent a ("plan_" +:+ itoa iteration) StatusPlanning
        "制定执行计划" (DataPlan plan);;
      sendEvent a ("execute_" +:+ itoa iteration) StatusExecuting
        "执行计划中..." (DataPlan plan);;
      x ← execute a plan;
      match x with
      | Err err => ret (Err ("执行阶段出错: " +:+ err))
      | Ok rc => ret (Ok rc)
      end
  end.

(** The state of the loop of [thinkExecuteLoop]: the passes left, the passes
    done, the current query, the world. *)
Definition PassState : Type := nat * Z * string * World.

(** The loop goes from one state to another by passes that end with the
    flag set. *)
Inductive passesDone (a : Agent) : PassState -> PassState -> Prop :=
| passesDone_none st : passesDone a st st
| passesDone_pass n iteration query w result w' st :
    pass a query (iteration + 1) w = (Ret (Ok (result, true)), w') ->
    passesDone a (n, iteration + 1, result, w')%Z st ->
    passesDone a (S n, iteration, query, w) st.

Definition startOfRun (a : Agent) (query : string) (w : World) : PassState :=
  (Z.to_nat (MaxIterations (config a)), 0%Z, query, started a w).

(** The rest of the loop of [thinkExecuteLoop] from a state. *)
Definition loopFrom (a : Agent) (st : PassState) : outcome (res string) * World :=
  let '(n, iteration, query, w) := st in thinkExecuteLoopFrom a n iteration query w.

End WithJson.

(** *** Scripted backends for closed runs *)

Definition isGenerate (c : Call) : bool :=
  match c with CallGenerate _ => true | _ => false end.

(** A model that answers its [n]-th call with the [n]-th entry of a script. *)
Definition scriptedModel (script : list (res string)) : Model :=
  {| Generate := fun cs _ =>
       nth (length (List.filter isGenerate cs)) script (Err "no response left") |}.

(** An agent with a model and a broker, without tools or retrieval. *)
Definition plainAgent (m : Model) (maxIterations : Z) : Agent :=
  {| config := {| ModelName := "scripted"; MaxIterations := maxIterations; Debug := false |};
     model := Some m; toolManager := None; ragEngine := None; sseBroker := true |}.

(** *** The scenario of the design document *)

Definition goal : string := "2+2 is what?".

Definition scenarioStep : PlanStep :=
  {| Action := "reason";
     Parameters := Some {["prompt" := VString "2+2"]};
     ShouldContinue := false |}.

Definition scenarioPlan (thought : string) : ExecutionPlan :=
  {| Thought := thought; Steps := [Some scenarioStep] |}.

Definition scenarioText (thought : string) : string :=
  quoted "{'thought':'" +:+ thought +:+
  quoted "','steps':[{'action':'reason','parameters':{'prompt':'2+2'},'should_continue':false}]}".

(** The world after a call to a backend. *)
Definition called (c : Call) (w : World) : World := snd (addCall c w).

(** The error of the relevance gate, as [think] wraps it. *)
Definition rejection : error := "执行计划验证失败: 执行计划与用户查询的相关性不足".

(** The model gives the plan of the scenario, then the answer. *)
Definition irrelevantAgent : Agent :=
  plainAgent (scriptedModel [Ok (scenarioText "solve arithmetic"); Ok "4"; Ok "4"; Ok "4"]) 5.

Definition relevantAgent : Agent :=
  plainAgent (scriptedModel [Ok (scenarioText "solve 2+2"); Ok "4"]) 5.

(** The model never gives a plan. *)
Definition garbledAgent : Agent :=
  plainAgent (scriptedModel [Ok "I cannot plan"; Ok "no plan"; Ok "no plan"; Ok "no plan"]) 5.

(** *** Other closed runs *)

Definition askTwoPlusTwo : string := "what is 2+2".

(** Two steps, the first of which asks to stop. *)
Definition textStopsFirst : string :=
  quoted "{'thought':'what is 2+2','steps':[{'action':'reason','parameters':{'prompt':'2+2'},'should_continue':false},{'action':'reason','parameters':{'prompt':'never asked'},'should_continue':true}]}".

(** One step that asks to continue. *)
Definition textContinues : string :=
  quoted "{'thought':'what is 2+2','steps':[{'action':'reason','parameters':{'prompt':'2+2'},'should_continue':true}]}".

Definition textOneStep : string :=
  quoted "{'thought':'what is 2+2','steps':[{'action':'reason','parameters':{'prompt':'2+2'},'should_continue':false}]}".

(** Three steps, the second of which asks to stop. *)
Definition textStopsSecond : string :=
  quoted "{'thought':'what is 2+2','steps':[{'action':'reason','parameters':{'prompt':'2+2'},'should_continue':true},{'action':'reason','parameters':{'prompt':'and twice that'},'should_continue':false},{'action':'reason','parameters':{'prompt':'never asked'},'should_continue':true}]}".

Definition agentStopsSecond : Agent :=
  plainAgent (scriptedModel [Ok textStopsSecond; Ok "4"; Ok "8"]) 3.

Definition agentStopsFirst : Agent :=
  plainAgent (scriptedModel [Ok textStopsFirst; Ok "4"]) 3.

Definition agentContinues : Agent :=
  plainAgent (scriptedModel [Ok textContinues; Ok "4 is what 2+2 is"]) 1.



(** A tool call whose input is a number. *)
Definition toolText : string :=
  quoted "{'thought':'add with the calculator','steps':[{'action':'search_tool','parameters':{'tool_name':'calculator','input':5},'should_continue':false}]}".

Definition toolStep : PlanStep :=
  {| Action := "search_tool";
     Parameters := Some (<["input" := VNumber 5]> {["tool_name" := VString "calculator"]});
     ShouldContinue := false |}.

Definition toolPlan : ExecutionPlan :=
  {| Thought := "add with the calculator"; Steps := [Some toolStep] |}.

Definition calculatorOnly : Manager :=
  {| ExecuteTool := fun _ _ _ => Ok "42";
     ListTools := fun _ => [{| Name := "calculator" |}] |}.

Definition toolAgent : Agent :=
  {| config := {| ModelName := "scripted"; MaxIterations := 5; Debug := false |};
     model := Some (scriptedModel [Ok toolText]);
     toolManager := Some calculatorOnly; ragEngine := None; sseBroker := true |}.

Definition toolQuery : string := "add 2 and 3 with the calculator".

(** *** The broker *)

Module SseRuns.

Import Sse.

(** The content of the queue of the client at address [p]. *)
Definition queueIn (h : gmap nat Client) (p : nat) : list string :=
  match h !! p with
  | Some c => events c
  | None => []
  end.

Definition queueOf {D : Type} (b : Broker (D := D)) (p : nat) : list string :=
  queueIn (heap b) p.


(** A payload that is JSON text already. *)
Definition raw (data : string) : res string := Ok data.



Definition eventA : Event (D := string) :=
  {| EventID := "1"; EventName := "agent"; Data := "A"; Retry := 5000 |}.
Definition eventB : Event (D := string) :=
  {| EventID := "2"; EventName := "agent"; Data := "B"; Retry := 5000 |}.

Definition bytesA : string :=
  "id: 1" +:+ newline +:+ "event: agent" +:+ newline +:+ "data: A" +:+ newline
  +:+ "retry: 5000" +:+ newline +:+ newline.
Definition bytesB : string :=
  "id: 2" +:+ newline +:+ "event: agent" +:+ newline +:+ "data: B" +:+ newline
  +:+ "retry: 5000" +:+ newline +:+ newline.

(** One subscriber; two events published, A then B; the goroutine of B runs
    before that of A. *)
Definition reorderedTrace : list (Label (D := string)) :=
  [ LSubscribe "c1" 0; LRegister 0;
    LBroadcast "1" "agent" "A"; LBroadcast "2" "agent" "B";
    LDispatch eventA; LDispatch eventB;
    LSend 0 bytesB true; LSend 0 bytesA true;
    LReceive 0 bytesB; LReceive 0 bytesA ].

End SseRuns.

(** *** Fenced text *)

Definition lf : string := String "010" EmptyString.

(** A text in a code block tagged as JSON. *)
Definition fenced (content : string) : string :=
  jsonStart +:+ lf +:+ content +:+ lf +:+ codeStart.

(** Two decodings leave the same plan and fail together. *)
Definition sameDecoding (r1 r2 : ExecutionPlan * option error) : Prop :=
  fst r1 = fst r2 /\ (snd r1 = None <-> snd r2 = None).

(** What [json.Unmarshal] is assumed to do: it takes no account of a line
    feed before and after the text, and it rejects a text that starts with a
    back quote before it writes anything to its target. *)
Class JsonLaws `{Json} : Prop := {
  Unmarshal_line_feeds data plan :
    sameDecoding (Unmarshal (lf +:+ data +:+ lf) plan) (Unmarshal data plan);
  Unmarshal_back_quote data plan :
    exists err, Unmarshal (String "`" data) plan = (plan, Some err)
}.

(** The plan of a parse, its error message left out. *)
Definition planOf (o : outcome (res ExecutionPlan)) : outcome (option ExecutionPlan) :=
  match o with
  | Ret (Ok plan) => Ret (Some plan)
  | Ret (Err _) => Ret None
  | Panic msg => Panic msg
  end.

Definition textWithBackQuotes : string :=
  quoted "{'thought':'put the answer between ``` marks','steps':[{'action':'reason','parameters':{'prompt':'2+2'},'should_continue':false}]}".

(** * Properties *)

(** ** Strings *)

Lemma prefix_app (s t : string) : String.prefix s (s +:+ t) = true.
Proof.
  induction s as [|c s IH]; simpl.
  - destruct t; reflexivity.
  - destruct (ascii_dec c c); [exact IH | congruence].
Qed.

Lemma Contains_prefix (s t : string) : String.prefix s t = true -> Contains t s = true.
Proof. intros Hp. destruct t; cbn [Contains]; rewrite Hp; reflexivity. Qed.

Lemma Contains_app_l (p s : string) (sub : string) :
  Contains s sub = true -> Contains (p +:+ s) sub = true.
Proof.
  intros Hs. induction p as [|c p IH]; [exact Hs|].
  change (String c p +:+ s) with (String c (p +:+ s)). cbn [Contains].
  rewrite IH. destruct (String.prefix sub (String c (p +:+ s))); reflexivity.
Qed.

(** A message contains each of the messages it is composed of. *)
Lemma Contains_middle (p s q : string) : Contains (p +:+ s +:+ q) s = true.
Proof. apply Contains_app_l, Contains_prefix, prefix_app. Qed.



Lemma append_assoc (a b c : string) : (a +:+ b) +:+ c = a +:+ (b +:+ c).
Proof. induction a as [|x a IH]; simpl; [reflexivity | now rewrite IH]. Qed.



Lemma length_append (a b : string) :
  String.length (a +:+ b) = (String.length a + String.length b)%nat.
Proof. induction a as [|x a IH]; simpl; [reflexivity | now rewrite IH]. Qed.

(** ** The structural validator (C4) *)

Lemma isEmpty_false (s : string) : s <> EmptyString -> isEmpty s = false.
Proof. destruct s; [congruence | reflexivity]. Qed.

Lemma validateStep_valid (i : Z) (step : PlanStep) :
  validStep step -> validateStep i step = None.
Proof.
  intros (ps & Hps & Hcase). unfold validateStep. rewrite Hps.
  destruct Hcase as [(Ha & [x Hx] & [y Hy]) | [(Ha & [x Hx]) | (Ha & [x Hx])]];
    rewrite Ha; simpl; rewrite ?Hx, ?Hy; reflexivity.
Qed.

Lemma validateSteps_valid (steps : list (option PlanStep)) :
  Forall (fun s => exists step, s = Some step /\ validStep step) steps ->
  forall i, validateSteps i steps = Ret None.
Proof.
  induction 1 as [|s steps (step & -> & Hv) _ IH]; intros i; simpl.
  - reflexivity.
  - rewrite (validateStep_valid i step Hv). apply IH.
Qed.

(** Every valid plan is accepted. *)
Lemma validatePlan_accepts_valid (plan : ExecutionPlan) :
  validPlan plan -> Plan.validatePlan plan = Ret None.
Proof.
  intros (Ht & Hs & Hall). unfold Plan.validatePlan.
  rewrite (isEmpty_false _ Ht).
  destruct (Steps plan) as [|s steps] eqn:E; [congruence|].
  now apply validateSteps_valid.
Qed.

(** Once a step has an action and a map of parameters, what the validator
    says of it does not depend on its index. *)
Lemma validateStep_ignores_index (i j : Z) (step : PlanStep) :
  Action step <> EmptyString -> Parameters step <> None ->
  validateStep i step = validateStep j step.
Proof.
  intros Ha Hp. unfold validateStep. rewrite (isEmpty_false _ Ha).
  destruct (Parameters step); [reflexivity | congruence].
Qed.

(** A nil step, the [null] of a JSON array, is dereferenced by the
    validator. *)
Lemma validatePlan_nil_step (thought : string) :
  thought <> EmptyString ->
  Plan.validatePlan {| Thought := thought; Steps := [None] |} = Panic nilDereference.
Proof.
  intros Ht. unfold Plan.validatePlan. cbn [Thought Steps].
  now rewrite (isEmpty_false _ Ht).
Qed.

(** C4, at the failing input.  A reasoning step without [prompt] is rejected
    with a message that names the missing field and no step index: neither
    the validator nor [ParseExecutionPlan] on the matching text mentions
    step 1. *)
Theorem missing_parameter_error_omits_step_index :
  Plan.validatePlan planMissingPrompt = Ret (Some "推理步骤缺少prompt参数")
  /\ ParseExecutionPlan (H := RefJson.json) textMissingPrompt
     = Ret (Err "执行计划验证失败: 推理步骤缺少prompt参数")
  /\ Contains "执行计划验证失败: 推理步骤缺少prompt参数" "prompt" = true
  /\ Contains "执行计划验证失败: 推理步骤缺少prompt参数" (itoa 1) = false.
Proof. repeat split; vm_compute; reflexivity. Qed.

(** ** The relevance gate (C2) *)











(** ** Running the engine *)

Lemma run_bind {A B} (k : A -> M B) (c : M A) (w : World) (x : A) (w' : World) :
  c w = (Ret x, w') -> mbind k c w = k x w'.
Proof. intros Hc. unfold mbind, M_bind, bind. now rewrite Hc. Qed.

Lemma run_bind_panic {A B} (k : A -> M B) (c : M A) (w : World) msg (w' : World) :
  c w = (Panic msg, w') -> mbind k c w = (Panic msg, w').
Proof. intros Hc. unfold mbind, M_bind, bind. now rewrite Hc. Qed.

Lemma run_ret {A B} (k : A -> M B) (x : A) (w : World) :
  mbind k (ret x) w = k x w.
Proof. reflexivity. Qed.

Lemma run_assoc {A B C} (k : B -> M C) (k' : A -> M B) (c : M A) (w : World) :
  mbind k (mbind k' c) w = mbind (fun x => mbind k (k' x)) c w.
Proof. unfold mbind, M_bind, bind. destruct (c w) as [[x|msg] w']; reflexivity. Qed.

Lemma run_sendEvent {B} (k : unit -> M B) a id status message data (w : World) :
  mbind k (sendEvent a id status message data) w
  = k tt (snd (sendEvent a id status message data w)).
Proof. reflexivity. Qed.

Lemma executeFrom_yields (a : Agent) i step rest result sc hist w r w' :
  stepYields a i step hist w r w' ->
  executeFrom a i (Some step :: rest) result sc hist w = afterStep a i step rest hist r w'.
Proof.
  intros Hy. cbn [executeFrom deref]. rewrite run_ret, run_sendEvent.
  fold (stepStarted a i step w). unfold afterStep.
  destruct Hy as [w1 He | err w1 w2 He Hr].
  - rewrite (run_bind _ _ _ _ _ He). cbv beta iota.
    rewrite run_ret, run_sendEvent.
    fold (stepCompleted a i r (ShouldContinue step) w1).
    destruct (_ && _); reflexivity.
  - rewrite (run_bind _ _ _ _ _ He). cbv beta iota.
    rewrite run_assoc, run_sendEvent.
    fold (stepError i err). fold (stepFailed a i err w1).
    rewrite run_assoc, (run_bind _ _ _ _ _ Hr). cbv beta iota.
    rewrite run_assoc, run_sendEvent, run_ret. cbv beta iota. rewrite run_sendEvent.
    fold (stepRecovered a i r w2).
    fold (stepCompleted a i r (ShouldContinue step) (stepRecovered a i r w2)).
    destruct (_ && _); reflexivity.
Qed.


Lemma afterStep_stop (a : Agent) i step rest hist r w :
  ShouldContinue step = false ->
  afterStep a i step rest hist r w = (Ret (Ok (r, false)), stepCompleted a i r false w).
Proof. intros Hc. unfold afterStep. rewrite Hc. reflexivity. Qed.

Lemma afterStep_continue (a : Agent) i step rest hist r w :
  ShouldContinue step = true -> rest <> [] ->
  afterStep a i step rest hist r w
  = executeFrom a (i + 1) rest r true (hist ++ [r]) (stepCompleted a i r true w).
Proof.
  intros Hc Hrest. unfold afterStep. rewrite Hc.
  rewrite bool_decide_eq_false_2 by exact Hrest. reflexivity.
Qed.


Lemma runFrom_stepsDone (a : Agent) (st st' : LoopState) :
  stepsDone a st st' -> runFrom a st = runFrom a st'.
Proof.
  induction 1 as [st | i step rest result sc hist w r w' st Hy Hc Hrest _ IH].
  - reflexivity.
  - rewrite <- IH. cbn [runFrom].
    rewrite (executeFrom_yields _ _ _ _ _ _ _ _ _ _ Hy).
    now apply afterStep_continue.
Qed.

Section WithJson.
Context `{Json}.

Lemma thinkExecuteLoopFrom_pass (a : Agent) n iteration query w :
  thinkExecuteLoopFrom a (S n) iteration query w
  = match pass a query (iteration + 1) w with
    | (Ret (Ok (result, shouldContinue)), w') =>
        if negb shouldContinue then (Ret (Ok result), w')
        else thinkExecuteLoopFrom a n (iteration + 1) result w'
    | (Ret (Err err), w') => (Ret (Err err), w')
    | (Panic msg, w') => (Panic msg, w')
    end.
Proof.
  cbn [thinkExecuteLoopFrom]. cbv zeta. unfold pass. rewrite !run_sendEvent.
  fold (thinking a (iteration + 1) w).
  destruct (think a query (iteration + 1) (thinking a (iteration + 1) w))
    as [[[plan|err]|msg] wt] eqn:Et.
  - rewrite !(run_bind _ _ _ _ _ Et). cbv beta iota. rewrite !run_sendEvent.
    fold (planned a (iteration + 1) plan wt).
    destruct (execute a plan (planned a (iteration + 1) plan wt))
      as [[[[r sc]|err]|msg] we] eqn:Ee.
    + rewrite !(run_bind _ _ _ _ _ Ee). destruct sc; reflexivity.
    + rewrite !(run_bind _ _ _ _ _ Ee). reflexivity.
    + rewrite !(run_bind_panic _ _ _ _ _ Ee). reflexivity.
  - rewrite !(run_bind _ _ _ _ _ Et). reflexivity.
  - rewrite !(run_bind_panic _ _ _ _ _ Et). reflexivity.
Qed.


Lemma loopFrom_passesDone (a : Agent) (st st' : PassState) :
  passesDone a st st' -> loopFrom a st = loopFrom a st'.
Proof.
  induction 1 as [st | n it q w r w' st Hp _ IH].
  - reflexivity.
  - rewrite <- IH. cbn [loopFrom]. rewrite thinkExecuteLoopFrom_pass, Hp. reflexivity.
Qed.

Lemma Execute_run (a : Agent) (query : string) (w : World) :
  model a <> None ->
  Execute a query w
  = match loopFrom a (startOfRun a query w) with
    | (Ret (Ok result), w') => (Ret (Ok result), completed a result w')
    | (Ret (Err err), w') => (Ret (Err err), failed a err w')
    | (Panic msg, w') => (Panic msg, w')
    end.
Proof.
  intros Hm. unfold Execute. destruct (model a); [|congruence].
  rewrite run_sendEvent. fold (started a w). unfold loopFrom, startOfRun.
  fold (thinkExecuteLoop a query).
  destruct (thinkExecuteLoop a query (started a w)) as [[[r|err]|msg] w'] eqn:El.
  - rewrite (run_bind _ _ _ _ _ El), run_sendEvent. reflexivity.
  - rewrite (run_bind _ _ _ _ _ El), run_sendEvent. reflexivity.
  - rewrite (run_bind_panic _ _ _ _ _ El). reflexivity.
Qed.

(** What a pass returns when its plan is known. *)
Lemma pass_of_plan (a : Agent) query iteration w plan wt :
  think a query iteration (thinking a iteration w) = (Ret (Ok plan), wt) ->
  pass a query iteration w
  = match runFrom a (startOfExecute plan (planned a iteration plan wt)) with
    | (Ret (Ok rc), w') => (Ret (Ok rc), w')
    | (Ret (Err err), w') => (Ret (Err ("执行阶段出错: " +:+ err)), w')
    | (Panic msg, w') => (Panic msg, w')
    end.
Proof.
  intros Ht. unfold pass. rewrite run_sendEvent. fold (thinking a iteration w).
  rewrite (run_bind _ _ _ _ _ Ht). cbv beta iota. rewrite !run_sendEvent.
  fold (planned a iteration plan wt).
  unfold runFrom, startOfExecute. fold (execute a plan).
  destruct (execute a plan (planned a iteration plan wt)) as [[[rc|err]|msg] we] eqn:Ee.
  - rewrite (run_bind _ _ _ _ _ Ee). reflexivity.
  - rewrite (run_bind _ _ _ _ _ Ee). reflexivity.
  - rewrite (run_bind_panic _ _ _ _ _ Ee). reflexivity.
Qed.

Lemma pass_of_think_error (a : Agent) query iteration w err wt :
  think a query iteration (thinking a iteration w) = (Ret (Err err), wt) ->
  pass a query iteration w = (Ret (Err ("思考阶段出错: " +:+ err)), wt).
Proof.
  intros Ht. unfold pass. rewrite run_sendEvent. fold (thinking a iteration w).
  rewrite (run_bind _ _ _ _ _ Ht). reflexivity.
Qed.

End WithJson.

(** ** The think step *)

Lemma modelGenerate_run (a : Agent) (m : Model) (prompt : string) (w : World) :
  model a = Some m ->
  modelGenerate a prompt w
  = (Ret (Generate m (calls w) prompt), called (CallGenerate prompt) w).
Proof. intros Hm. unfold modelGenerate. rewrite Hm. reflexivity. Qed.

(** [Agent.validatePlan] reads the world and leaves it as it is. *)
Lemma validatePlan_world (a : Agent) plan query (w : World) :
  snd (Core.validatePlan a plan query w) = w.
Proof.
  unfold Core.validatePlan. destruct plan as [plan|]; [|reflexivity].
  destruct (Steps plan) as [|s steps]; [reflexivity|].
  unfold mbind, M_bind, bind, getCalls, lift, ret.
  destruct (checkSteps a (calls w) 0 (s :: steps)) as [[e|]|msg]; try reflexivity.
  destruct (negb _); reflexivity.
Qed.

Lemma validatePlan_irrelevant (a : Agent) (plan : ExecutionPlan) (query : string) (w : World) :
  Steps plan <> [] ->
  checkSteps a (calls w) 0 (Steps plan) = Ret None ->
  isPlanRelevant plan query = false ->
  Core.validatePlan a (Some plan) query w
  = (Ret (Some "执行计划与用户查询的相关性不足"), w).
Proof.
  intros Hs Hc Hr. unfold Core.validatePlan.
  destruct (Steps plan) as [|s steps] eqn:Es; [congruence|].
  unfold mbind, M_bind, bind, getCalls, lift, ret. rewrite Hc, Hr. reflexivity.
Qed.

Lemma validatePlan_relevant (a : Agent) (plan : ExecutionPlan) (query : string) (w : World) :
  Steps plan <> [] ->
  checkSteps a (calls w) 0 (Steps plan) = Ret None ->
  isPlanRelevant plan query = true ->
  Core.validatePlan a (Some plan) query w = (Ret None, w).
Proof.
  intros Hs Hc Hr. unfold Core.validatePlan.
  destruct (Steps plan) as [|s steps] eqn:Es; [congruence|].
  unfold mbind, M_bind, bind, getCalls, lift, ret. rewrite Hc, Hr. reflexivity.
Qed.

Section WithJson.
Context `{Json}.

(** [think], once the model has answered. *)
Lemma think_run (a : Agent) (m : Model) (query : string) (iteration : Z)
    (w : World) (response : string) :
  model a = Some m ->
  Generate m (calls w) (buildThinkPrompt a (calls w) query iteration) = Ok response ->
  let w1 := called (CallGenerate (buildThinkPrompt a (calls w) query iteration)) w in
  think a query iteration w
  = match ParseExecutionPlan response with
    | Panic msg => (Panic msg, w1)
    | Ret (Err err) =>
        if (iteration <? 3)%Z then thinkWithRetryInternal a query (iteration + 1) w1
        else (Ret (Err ("解析执行计划失败: " +:+ err)), w1)
    | Ret (Ok plan) =>
        match fst (Core.validatePlan a (Some plan) query w1) with
        | Panic msg => (Panic msg, w1)
        | Ret (Some err) => (Ret (Err ("执行计划验证失败: " +:+ err)), w1)
        | Ret None => (Ret (Ok plan), w1)
        end
    end.
Proof.
  intros Hm Hg w1. unfold think.
  change (mbind ?k getCalls w) with (k (calls w) w). cbv beta zeta.
  rewrite (run_bind _ _ _ _ _ (modelGenerate_run a m _ w Hm)), Hg. fold w1.
  cbv beta iota.
  change (mbind ?k (lift ?o) w1)
    with (match o with Ret x => k x w1 | Panic msg => (Panic msg, w1) end).
  destruct (ParseExecutionPlan response) as [[plan|err]|msg] eqn:Ep.
  - cbv beta iota.
    pose proof (validatePlan_world a (Some plan) query w1) as Hw.
    destruct (Core.validatePlan a (Some plan) query w1) as [[[e|]|msg] w'] eqn:Ev;
      cbn [fst snd] in *; subst w'.
    + rewrite (run_bind _ _ _ _ _ Ev). reflexivity.
    + rewrite (run_bind _ _ _ _ _ Ev). reflexivity.
    + rewrite (run_bind_panic _ _ _ _ _ Ev). reflexivity.
  - cbv beta iota. destruct (iteration <? 3)%Z; reflexivity.
  - reflexivity.
Qed.

(** The retry makes one call to the model, with the retry prompt. *)
Lemma thinkWithRetryInternal_calls (a : Agent) (m : Model) (query : string)
    (retryCount : Z) (w : World) :
  model a = Some m ->
  calls (snd (thinkWithRetryInternal a query retryCount w))
  = calls w ++ [CallGenerate (buildRetryThinkPrompt a (calls w) query retryCount)].
Proof.
  intros Hm. unfold thinkWithRetryInternal.
  change (mbind ?k getCalls w) with (k (calls w) w). cbv beta zeta.
  rewrite (run_bind _ _ _ _ _ (modelGenerate_run a m _ w Hm)).
  destruct (Generate m (calls w) _) as [response|err]; cbv beta iota; [|reflexivity].
  change (mbind ?k (lift ?o) ?w')
    with (match o with Ret x => k x w' | Panic msg => (Panic msg, w') end).
  destruct (ParseExecutionPlan response) as [[plan|err]|msg]; reflexivity.
Qed.

(** Whatever error the think step of a pass returns ends the run. *)
Lemma Execute_think_error (a : Agent) (query : string) (w : World)
    n iteration currentQuery wp err wt :
  model a <> None ->
  passesDone a (startOfRun a query w) (S n, iteration, currentQuery, wp) ->
  think a currentQuery (iteration + 1) (thinking a (iteration + 1) wp)
    = (Ret (Err err), wt) ->
  Execute a query w
  = (Ret (Err ("思考阶段出错: " +:+ err)), failed a ("思考阶段出错: " +:+ err) wt).
Proof.
  intros Hm Hp Ht.
  rewrite (Execute_run _ _ _ Hm), (loopFrom_passesDone _ _ _ Hp).
  cbn [loopFrom]. rewrite thinkExecuteLoopFrom_pass, (pass_of_think_error _ _ _ _ _ _ Ht).
  reflexivity.
Qed.

(** C1, as the code has it.  In the pass of number [number], once the model
    has answered the think prompt: a plan that [Agent.validatePlan] rejects,
    for its relevance or for anything else, is not retried, the error goes
    to the caller and the run ends with that one call made; a response that
    [ParseExecutionPlan] rejects (no JSON found, or a plan that is not well
    formed) is retried with the retry prompt when [number < 3], the error of
    the retry going to the caller, and goes to the caller at once when
    [3 <= number]. *)
Theorem think_retries_parse_failures_only (a : Agent) (m : Model) (query : string)
    (w : World) :
  model a = Some m ->
  forall n iteration currentQuery wp response,
    passesDone a (startOfRun a query w) (S n, iteration, currentQuery, wp) ->
    let number := (iteration + 1)%Z in
    let w0 := thinking a number wp in
    let prompt := buildThinkPrompt a (calls w0) currentQuery number in
    let w1 := called (CallGenerate prompt) w0 in
    let surfaced (err : error) (w' : World) :=
      Execute a query w
      = (Ret (Err ("思考阶段出错: " +:+ err)), failed a ("思考阶段出错: " +:+ err) w') in
    Generate m (calls w0) prompt = Ok response ->
    (forall plan err,
        ParseExecutionPlan response = Ret (Ok plan) ->
        fst (Core.validatePlan a (Some plan) currentQuery w1) = Ret (Some err) ->
        surfaced ("执行计划验证失败: " +:+ err) w1)
    /\ (forall plan,
        ParseExecutionPlan response = Ret (Ok plan) ->
        Steps plan <> [] ->
        checkSteps a (calls w1) 0 (Steps plan) = Ret None ->
        isPlanRelevant plan currentQuery = false ->
        surfaced rejection w1)
    /\ (forall err,
        ParseExecutionPlan response = Ret (Err err) ->
        (number < 3)%Z ->
        think a currentQuery number w0
          = thinkWithRetryInternal a currentQuery (number + 1) w1
        /\ calls (snd (thinkWithRetryInternal a currentQuery (number + 1) w1))
           = calls w1
             ++ [CallGenerate (buildRetryThinkPrompt a (calls w1) currentQuery (number + 1))]
        /\ (forall err' w2,
               thinkWithRetryInternal a currentQuery (number + 1) w1 = (Ret (Err err'), w2) ->
               surfaced err' w2))
    /\ (forall err,
        ParseExecutionPlan response = Ret (Err err) ->
        (3 <= number)%Z ->
        surfaced ("解析执行计划失败: " +:+ err) w1).
Proof.
  intros Hm n iteration currentQuery wp response Hp number w0 prompt w1 surfaced Hg.
  assert (Hm' : model a <> None) by congruence.
  pose proof (think_run a m currentQuery number w0 response Hm Hg) as Ht.
  cbv zeta in Ht. fold prompt in Ht. fold w1 in Ht.
  split; [|split; [|split]].
  - intros plan err Hparse Hv. unfold surfaced.
    apply (Execute_think_error a query w n iteration currentQuery wp _ w1 Hm' Hp).
    fold number. fold w0. rewrite Ht, Hparse, Hv. reflexivity.
  - intros plan Hparse Hs Hc Hr. unfold surfaced.
    apply (Execute_think_error a query w n iteration currentQuery wp _ w1 Hm' Hp).
    fold number. fold w0.
    rewrite Ht, Hparse, (validatePlan_irrelevant a plan currentQuery w1 Hs Hc Hr).
    reflexivity.
  - intros err Hparse Hlt.
    assert (Hretry : think a currentQuery number w0
                     = thinkWithRetryInternal a currentQuery (number + 1) w1).
    { rewrite Ht, Hparse. apply Z.ltb_lt in Hlt. now rewrite Hlt. }
    split; [exact Hretry|]. split.
    + now apply thinkWithRetryInternal_calls with (m := m).
    + intros err' w2 Hr. unfold surfaced.
      apply (Execute_think_error a query w n iteration currentQuery wp _ w2 Hm' Hp).
      fold number. fold w0. now rewrite Hretry.
  - intros err Hparse Hge. unfold surfaced.
    apply (Execute_think_error a query w n iteration currentQuery wp _ w1 Hm' Hp).
    fold number. fold w0. rewrite Ht, Hparse.
    assert (Hlt : (number <? 3)%Z = false) by (apply Z.ltb_ge; lia).
    now rewrite Hlt.
Qed.

End WithJson.

(** The rejected plan of the scenario ends the run at once; a model that
    never gives a plan is asked a second time, and the error of the retry
    ends the run. *)
Lemma think_retries_parse_failures_only_witness :
  fst (Execute (H := RefJson.json) irrelevantAgent goal emptyWorld)
    = Ret (Err ("思考阶段出错: " +:+ rejection))
  /\ fst (Execute (H := RefJson.json) garbledAgent goal emptyWorld)
     = Ret (Err "思考阶段出错: 重试解析执行计划失败: 无法从响应中提取JSON: invalid JSON text").
Proof.
  split.
  - edestruct (think_retries_parse_failures_only (H := RefJson.json)
                 irrelevantAgent _ goal emptyWorld eq_refl) as (_ & Hrel & _).
    + apply passesDone_none.
    + vm_compute. reflexivity.
    + erewrite Hrel; [reflexivity | | | | ].
      * vm_compute. reflexivity.
      * discriminate.
      * vm_compute. reflexivity.
      * vm_compute. reflexivity.
  - edestruct (think_retries_parse_failures_only (H := RefJson.json)
                 garbledAgent _ goal emptyWorld eq_refl) as (_ & _ & Hretry & _).
    + apply passesDone_none.
    + vm_compute. reflexivity.
    + edestruct Hretry as (_ & _ & Hsurf).
      * vm_compute. reflexivity.
      * vm_compute. reflexivity.
      * erewrite Hsurf; [reflexivity|]. vm_compute. reflexivity.
Defined.

(** C1 as worded fails.  The plan of the scenario is rejected for its
    relevance and the run ends with an error after the one call of the think
    prompt: no retry is made.  And a response without a plan in the first
    pass costs two calls in all, the think prompt and one retry, not three
    retries. *)
Lemma relevance_rejection_is_not_retried :
  fst (Execute (H := RefJson.json) irrelevantAgent goal emptyWorld)
    = Ret (Err ("思考阶段出错: " +:+ rejection))
  /\ calls (snd (Execute (H := RefJson.json) irrelevantAgent goal emptyWorld))
     = [CallGenerate (buildThinkPrompt irrelevantAgent [] goal 1)]
  /\ length (calls (snd (Execute (H := RefJson.json) garbledAgent goal emptyWorld))) = 2%nat.
Proof. repeat split; vm_compute; reflexivity. Qed.

(** ** The scenario of the design document (C3) *)

Lemma sendEvent_events a id status message data w :
  events (snd (sendEvent a id status message data w))
  = events w ++ [{| ID := id; Status := status; Message := message; Data := data |}].
Proof. reflexivity. Qed.

Lemma completedCount_snoc (l : list AgentEvent) (e : AgentEvent) :
  completedCount (l ++ [e])
  = (completedCount l + if bool_decide (Status e = StatusCompleted) then 1 else 0)%nat.
Proof.
  unfold completedCount. rewrite List.filter_app, length_app. cbn [List.filter].
  destruct (bool_decide _); reflexivity.
Qed.

Lemma completedCount_snoc_other (l : list AgentEvent) (e : AgentEvent) :
  Status e <> StatusCompleted -> completedCount (l ++ [e]) = completedCount l.
Proof.
  intros Hne. rewrite completedCount_snoc, bool_decide_eq_false_2 by exact Hne. lia.
Qed.

Lemma scenarioStep_prompt :
  param (Parameters scenarioStep) "prompt" = Some (VString "2+2").
Proof. vm_compute. reflexivity. Qed.

Lemma executeReasonStep_run (a : Agent) (m : Model) (step : PlanStep) (prompt : string)
    (w : World) :
  model a = Some m ->
  param (Parameters step) "prompt" = Some (VString prompt) ->
  executeReasonStep a step w
  = (Ret (match Generate m (calls w) prompt with
          | Ok response => Ok response
          | Err err => Err ("推理失败: " +:+ err)
          end),
     called (CallGenerate prompt) w).
Proof.
  intros Hm Hp. unfold executeReasonStep. rewrite Hp. cbn [assertString].
  rewrite run_ret, (run_bind _ _ _ _ _ (modelGenerate_run a m _ w Hm)).
  destruct (Generate m (calls w) prompt); reflexivity.
Qed.

Section WithJson.
Context `{Json}.

(** C3, as the code has it.  For the goal "2+2 is what?" and the single-step
    plan of the scenario produced by the model, [Execute] returns the
    reasoning output of the model and sends exactly one Completed event when
    the thought passes the relevance gate, as "solve 2+2" does; when it does
    not, as "solve arithmetic" does not, [Execute] returns the error of the
    gate and sends no Completed event. *)
Theorem scenario_answer_needs_a_relevant_thought (a : Agent) (m : Model) (w : World)
    (thought response answer : string) :
  model a = Some m ->
  (1 <= MaxIterations (config a))%Z ->
  let prompt := buildThinkPrompt a (calls w) goal 1 in
  Generate m (calls w) prompt = Ok response ->
  ParseExecutionPlan response = Ret (Ok (scenarioPlan thought)) ->
  Generate m (calls w ++ [CallGenerate prompt]) "2+2" = Ok answer ->
  (isPlanRelevant (scenarioPlan thought) goal = true ->
   fst (Execute a goal w) = Ret (Ok answer)
   /\ completedCount (events (snd (Execute a goal w))) = S (completedCount (events w)))
  /\ (isPlanRelevant (scenarioPlan thought) goal = false ->
      fst (Execute a goal w) = Ret (Err ("思考阶段出错: " +:+ rejection))
      /\ completedCount (events (snd (Execute a goal w))) = completedCount (events w))
  /\ isPlanRelevant (scenarioPlan "solve arithmetic") goal = false
  /\ isPlanRelevant (scenarioPlan "solve 2+2") goal = true.
Proof.
  intros Hm Hmax prompt Hg Hparse Hanswer.
  assert (Hm' : model a <> None) by congruence.
  destruct (Z.to_nat (MaxIterations (config a))) as [|n] eqn:En; [lia|].
  assert (Hstart : startOfRun a goal w = (S n, 0%Z, goal, started a w))
    by (unfold startOfRun; now rewrite En).
  pose proof (think_run a m goal 1 (thinking a 1 (started a w)) response Hm Hg) as Ht.
  cbv zeta in Ht.
  change (calls (thinking a 1 (started a w))) with (calls w) in Ht. fold prompt in Ht.
  rewrite Hparse in Ht.
  set (w1 := called (CallGenerate prompt) (thinking a 1 (started a w))) in *.
  assert (Hcheck : checkSteps a (calls w1) 0 (Steps (scenarioPlan thought)) = Ret None)
    by reflexivity.
  assert (Hsteps : Steps (scenarioPlan thought) <> []) by discriminate.
  split; [|split; [|split; vm_compute; reflexivity]].
  - intros Hrel.
    rewrite (validatePlan_relevant a _ goal w1 Hsteps Hcheck Hrel) in Ht. cbn [fst] in Ht.
    assert (Hrun : Execute a goal w
                   = (Ret (Ok answer),
                      completed a answer
                        (stepCompleted a 0 answer false
                           (called (CallGenerate "2+2")
                              (stepStarted a 0 scenarioStep
                                 (planned a 1 (scenarioPlan thought) w1)))))).
    { rewrite (Execute_run _ _ _ Hm'), Hstart. cbn [loopFrom].
      rewrite thinkExecuteLoopFrom_pass. change (0 + 1)%Z with 1%Z.
      rewrite (pass_of_plan _ _ _ _ _ _ Ht). cbn [startOfExecute runFrom scenarioPlan Steps].
      erewrite executeFrom_yields.
      2:{ apply yields_directly. unfold executeStep. cbn [scenarioStep Action].
          change (String.eqb "reason" "search_tool") with false.
          change (String.eqb "reason" "rag_search") with false.
          change (String.eqb "reason" "reason") with true. cbv iota.
          rewrite (executeReasonStep_run a m _ "2+2" _ Hm scenarioStep_prompt).
          change (calls (stepStarted a 0 scenarioStep (planned a 1 (scenarioPlan thought) w1)))
            with (calls w ++ [CallGenerate prompt]).
          rewrite Hanswer. reflexivity. }
      rewrite afterStep_stop by reflexivity. reflexivity. }
    rewrite Hrun. cbn [fst snd]. split; [reflexivity|].
    unfold completed, stepCompleted, called, stepStarted, planned, w1, called, thinking, started.
    cbn [snd sendEvent addCall events].
    rewrite completedCount_snoc. cbn [Status]. rewrite bool_decide_eq_true_2 by reflexivity.
    rewrite !completedCount_snoc_other by (cbn [Status]; discriminate). lia.
  - intros Hrel.
    rewrite (validatePlan_irrelevant a _ goal w1 Hsteps Hcheck Hrel) in Ht. cbn [fst] in Ht.
    assert (Hrun : Execute a goal w
                   = (Ret (Err ("思考阶段出错: " +:+ rejection)),
                      failed a ("思考阶段出错: " +:+ rejection) w1)).
    { rewrite (Execute_run _ _ _ Hm'), Hstart. cbn [loopFrom].
      rewrite thinkExecuteLoopFrom_pass. change (0 + 1)%Z with 1%Z.
      rewrite (pass_of_think_error _ _ _ _ _ _ Ht). reflexivity. }
    rewrite Hrun. cbn [fst snd]. split; [reflexivity|].
    unfold failed, w1, called, thinking, started.
    cbn [snd sendEvent addCall events].
    rewrite !completedCount_snoc_other by (cbn [Status]; discriminate). reflexivity.
Qed.

End WithJson.

(** The scenario with the thought "solve 2+2". *)
Lemma scenario_answer_needs_a_relevant_thought_witness :
  fst (Execute (H := RefJson.json) relevantAgent goal emptyWorld) = Ret (Ok "4")
  /\ completedCount (events (snd (Execute (H := RefJson.json) relevantAgent goal emptyWorld)))
     = 1%nat.
Proof.
  edestruct (scenario_answer_needs_a_relevant_thought (H := RefJson.json)
               relevantAgent (scriptedModel [Ok (scenarioText "solve 2+2"); Ok "4"])
               emptyWorld "solve 2+2" (scenarioText "solve 2+2") "4" eq_refl)
    as (Hyes & _).
  - vm_compute. discriminate.
  - vm_compute. reflexivity.
  - vm_compute. reflexivity.
  - vm_compute. reflexivity.
  - apply Hyes. vm_compute. reflexivity.
Defined.

(** C3 as worded fails.  The text of the scenario decodes to its plan; none
    of the words "2+2", "is", "what?" occurs in "solve arithmetic"; [Execute]
    returns the error of the relevance gate and no Completed event is
    sent. *)
Lemma scenario_plan_is_rejected :
  ParseExecutionPlan (H := RefJson.json) (scenarioText "solve arithmetic")
    = Ret (Ok (scenarioPlan "solve arithmetic"))
  /\ fst (Execute (H := RefJson.json) irrelevantAgent goal emptyWorld)
     = Ret (Err ("思考阶段出错: " +:+ rejection))
  /\ completedCount (events (snd (Execute (H := RefJson.json) irrelevantAgent goal emptyWorld)))
     = 0%nat.
Proof. repeat split; vm_compute; reflexivity. Qed.

(** ** The end of the loops (C5) *)

Section WithJson.
Context `{Json}.

(** C5.  In any pass, once the steps before it have run, a step that yields
    a result, its own or that of its recovery, with its flag unset ends the
    run: [Execute] returns that result, whatever steps follow it in the
    plan.  And when every one of the [MaxIterations] passes ends with the
    flag set, [Execute] returns the error of the exceeded budget. *)
Theorem continue_false_ends_run_and_budget_is_enforced
    (a : Agent) (query : string) (w : World) :
  model a <> None ->
  (forall n iteration currentQuery wp plan wt i step rest result flag history ws r wr,
      passesDone a (startOfRun a query w) (S n, iteration, currentQuery, wp) ->
      think a currentQuery (iteration + 1) (thinking a (iteration + 1) wp)
        = (Ret (Ok plan), wt) ->
      stepsDone a (startOfExecute plan (planned a (iteration + 1) plan wt))
        (i, Some step :: rest, result, flag, history, ws) ->
      stepYields a i step history ws r wr ->
      ShouldContinue step = false ->
      Execute a query w = (Ret (Ok r), completed a r (stepCompleted a i r false wr)))
  /\ (forall iteration currentQuery wp,
      passesDone a (startOfRun a query w) (0%nat, iteration, currentQuery, wp) ->
      let err := "超过最大迭代次数 " +:+ itoa (MaxIterations (config a)) in
      Execute a query w = (Ret (Err err), failed a err wp)).
Proof.
  intros Hm. split.
  - intros n it q wp plan wt i step rest result flag hist ws r wr Hp Ht Hs Hy Hc.
    rewrite (Execute_run _ _ _ Hm), (loopFrom_passesDone _ _ _ Hp).
    cbn [loopFrom]. rewrite thinkExecuteLoopFrom_pass, (pass_of_plan _ _ _ _ _ _ Ht).
    rewrite (runFrom_stepsDone _ _ _ Hs). cbn [runFrom].
    rewrite (executeFrom_yields _ _ _ _ _ _ _ _ _ _ Hy), (afterStep_stop _ _ _ _ _ _ _ Hc).
    reflexivity.
  - intros it q wp Hp err.
    rewrite (Execute_run _ _ _ Hm), (loopFrom_passesDone _ _ _ Hp). reflexivity.
Qed.

End WithJson.

(** A plan whose first step asks to stop and whose second step is never
    run; a plan whose second step asks to stop and whose third step is never
    run; a plan that asks to continue, with a budget of one pass. *)
Lemma continue_false_ends_run_and_budget_is_enforced_witness :
  fst (Execute (H := RefJson.json) agentStopsFirst askTwoPlusTwo emptyWorld) = Ret (Ok "4")
  /\ fst (Execute (H := RefJson.json) agentStopsSecond askTwoPlusTwo emptyWorld)
     = Ret (Ok "8")
  /\ fst (Execute (H := RefJson.json) agentContinues askTwoPlusTwo emptyWorld)
     = Ret (Err "超过最大迭代次数 1").
Proof.
  split; [|split].
  - assert (Hm : model agentStopsFirst <> None) by discriminate.
    destruct (continue_false_ends_run_and_budget_is_enforced (H := RefJson.json)
                agentStopsFirst askTwoPlusTwo emptyWorld Hm) as [Hstop _].
    erewrite Hstop; [reflexivity | | | | | ].
    + apply passesDone_none.
    + vm_compute. reflexivity.
    + apply stepsDone_none.
    + apply yields_directly. vm_compute. reflexivity.
    + reflexivity.
  - assert (Hm : model agentStopsSecond <> None) by discriminate.
    destruct (continue_false_ends_run_and_budget_is_enforced (H := RefJson.json)
                agentStopsSecond askTwoPlusTwo emptyWorld Hm) as [Hstop _].
    erewrite Hstop; [reflexivity | | | | | ].
    + apply passesDone_none.
    + vm_compute. reflexivity.
    + eapply stepsDone_step; [ | | | apply stepsDone_none].
      * apply yields_directly. vm_compute. reflexivity.
      * reflexivity.
      * discriminate.
    + apply yields_directly. vm_compute. reflexivity.
    + reflexivity.
  - assert (Hm : model agentContinues <> None) by discriminate.
    destruct (continue_false_ends_run_and_budget_is_enforced (H := RefJson.json)
                agentContinues askTwoPlusTwo emptyWorld Hm) as [_ Hbudget].
    erewrite Hbudget; [reflexivity | ].
    eapply passesDone_pass; [vm_compute; reflexivity | apply passesDone_none].
Defined.

(** ** Recovery (C6) *)

Section WithJson.
Context `{Json}.


End WithJson.


(** ** Validated plans that panic (C10) *)

(** A tool step whose [input] is there and is not a string panics. *)
Lemma executeToolStep_panics (a : Agent) (tm : Manager) (step : PlanStep)
    (toolName : string) (input : Value) (w : World) :
  toolManager a = Some tm ->
  param (Parameters step) "tool_name" = Some (VString toolName) ->
  param (Parameters step) "input" = Some input ->
  (forall s, input <> VString s) ->
  executeToolStep a step w
  = (Panic ("interface conversion: interface {} is " +:+ typeName (Some input)
              +:+ ", not string"), w).
Proof.
  intros Htm Hname Hinput Hns. unfold executeToolStep. rewrite Htm, Hname, Hinput.
  cbn [assertString]. rewrite run_ret.
  destruct input; try reflexivity. now destruct (Hns s).
Qed.

(** C10.  A plan with a tool step whose [input] is the number 5 passes the
    structural validator and the validation of the engine, and its step
    panics in [executeToolStep]: so does [Execute] when the model gives the
    text of that plan. *)
Theorem validated_plan_panics_in_execution :
  exists (a : Agent) (plan : ExecutionPlan) (query : string) (step : PlanStep),
    Steps plan = [Some step]
    /\ Action step = "search_tool"
    /\ param (Parameters step) "input" = Some (VNumber 5)
    /\ Plan.validatePlan plan = Ret None
    /\ (forall w, Core.validatePlan a (Some plan) query w = (Ret None, w))
    /\ (forall w, fst (executeStep a step w)
                  = Panic "interface conversion: interface {} is float64, not string")
    /\ ParseExecutionPlan (H := RefJson.json) toolText = Ret (Ok plan)
    /\ fst (Execute (H := RefJson.json) a query emptyWorld)
       = Panic "interface conversion: interface {} is float64, not string".
Proof.
  exists toolAgent, toolPlan, toolQuery, toolStep.
  repeat split; vm_compute; reflexivity.
Qed.

(** ** The broker (C7, C8) *)

Module SseProps.

Import Sse SseRuns.

Section WithData.
Context {D : Type} (Marshal : D -> res string).

Lemma Send_events (pick : bool) (event : string) (c c' : Client) (ok : bool) :
  Send pick event c = Ret (c', ok) ->
  events c' = events c ++ (if ok then [event] else []).
Proof.
  unfold Send. intros Hs.
  destruct (_ && _); [destruct (eventsClosed c); [discriminate|]|destruct (doneClosed c)];
    inversion Hs; subst; cbn [events]; now rewrite ?app_nil_r.
Qed.



Lemma Close_events (c c' : Client) : Close c = Ret c' -> events c' = events c.
Proof. unfold Close. destruct (_ || _); [discriminate|]. now intros [= <-]. Qed.

Lemma queueIn_insert (h : gmap nat Client) (p q : nat) (c : Client) :
  queueIn (<[p := c]> h) q = if decide (p = q) then events c else queueIn h q.
Proof.
  unfold queueIn. rewrite lookup_insert. destruct (decide (p = q)); reflexivity.
Qed.

Lemma closeAll_queueIn (ps : list nat) :
  forall (h h' : gmap nat Client), closeAll ps h = Ret h' ->
  forall q, queueIn h' q = queueIn h q.
Proof.
  induction ps as [|p ps IH]; intros h h' Hc q; cbn [closeAll] in Hc.
  - now inversion Hc.
  - destruct (h !! p) as [c|] eqn:Ep; [|discriminate].
    destruct (Close c) as [c'|] eqn:Ec; [|discriminate].
    rewrite (IH _ _ Hc q), queueIn_insert.
    destruct (decide (p = q)) as [->|]; [|reflexivity].
    unfold queueIn. rewrite Ep. now apply Close_events.
Qed.


Lemma goSend_queue (pick : bool) (p : nat) (eventBytes : string)
    (b b' : Broker (D := D)) (ok : bool) :
  goSend pick p eventBytes b = Ret (b', ok) ->
  forall q, queueOf b' q
            = queueOf b q ++ (if decide (p = q) then if ok then [eventBytes] else [] else []).
Proof.
  unfold goSend. intros Hg q.
  destruct (heap b !! p) as [c|] eqn:Ep; [|discriminate].
  destruct (Send pick eventBytes c) as [[c' ok']|] eqn:Es; [|discriminate].
  inversion Hg; subst. unfold queueOf. cbn [heap withHeap]. rewrite queueIn_insert.
  destruct (decide (p = q)) as [->|]; [|now rewrite app_nil_r].
  unfold queueIn. rewrite Ep. exact (Send_events _ _ _ _ _ Es).
Qed.

Lemma enqueued_snoc (p : nat) (trace : list (Label (D := D))) (l : Label) :
  enqueued p (trace ++ [l]) = enqueued p trace ++ enqueuedOf p l.
Proof. unfold enqueued. now rewrite map_app, concat_app; cbn; rewrite app_nil_r. Qed.

Lemma received_snoc (p : nat) (trace : list (Label (D := D))) (l : Label) :
  received p (trace ++ [l]) = received p trace ++ receivedOf p l.
Proof. unfold received. now rewrite map_app, concat_app; cbn; rewrite app_nil_r. Qed.

(** What a step does to the queue of a client: the events of the successful
    sends come at the back, the event received goes from the front. *)
Lemma step_queue (b b' : Broker (D := D)) (l : Label) (p : nat) :
  step Marshal b l b' ->
  receivedOf p l ++ queueOf b' p = queueOf b p ++ enqueuedOf p l.
Proof.
  intros Hs.
  destruct Hs as
    [ b clientID p0 Hfresh _
    | b clientID _
    | b p0 client eventBytes rest Hclient Hevents
    | b id eventType data
    | b _
    | b p0 rest b' _ _ Hrun
    | b clientID rest b' _ _ Hrun
    | b event rest _ _
    | b b' _ _ Hrun
    | b pick clientID id eventType data p0 eventBytes b' ok Hclient Hbytes Hrun
    | b g1 g2 p0 eventBytes pick b' ok _ Hrun ];
    cbn [receivedOf enqueuedOf]; rewrite ?app_nil_r; cbn [app].
  - (* Subscribe *)
    unfold queueOf. cbn [heap]. rewrite queueIn_insert.
    destruct (decide (p0 = p)) as [->|]; [|reflexivity].
    unfold queueIn. now rewrite Hfresh.
  - reflexivity.
  - (* a receive *)
    unfold queueOf. cbn [heap withHeap]. rewrite queueIn_insert.
    destruct (decide (p0 = p)) as [->|]; [|reflexivity].
    unfold queueIn. rewrite Hclient. cbn [events app]. now rewrite Hevents.
  - (* Broadcast *)
    unfold Broadcast. now destruct (_ <? _)%nat.
  - reflexivity.
  - (* register *)
    unfold runRegister in Hrun. destruct (heap b !! p0); [|discriminate].
    now inversion Hrun.
  - (* unregister *)
    unfold runUnregister in Hrun.
    destruct (clients b !! clientID) as [p'|]; [|now inversion Hrun].
    destruct (heap b !! p') as [c|] eqn:Ep; [|discriminate].
    destruct (Close c) as [c'|] eqn:Ec; [|discriminate].
    inversion Hrun. unfold queueOf. cbn [heap]. rewrite queueIn_insert.
    destruct (decide (p' = p)) as [->|]; [|reflexivity].
    unfold queueIn. rewrite Ep. now apply Close_events.
  - reflexivity.
  - (* stop *)
    unfold runStop in Hrun.
    destruct (closeAll _ _) as [h|] eqn:Ec; [|discriminate].
    inversion Hrun. unfold queueOf. cbn [heap]. now apply (closeAll_queueIn _ _ _ Ec).
  - (* SendTo *)
    unfold SendTo in Hrun. rewrite Hclient, Hbytes in Hrun.
    rewrite (goSend_queue _ _ _ _ _ _ Hrun p).
    destruct (decide (p0 = p)); destruct ok; reflexivity.
  - (* a goroutine of run *)
    rewrite (goSend_queue _ _ _ _ _ _ Hrun p).
    destruct (decide (p0 = p)); destruct ok; reflexivity.
Qed.

(** C8, as the code has it.  In every run of the broker, what the
    subscriber of a client has received is the front of what the successful
    sends have put in its queue, in the order of those sends: the queue is
    first in, first out.  The order of the sends themselves is that of the
    goroutines, which nothing ties to the order of publication. *)
Theorem deliveries_follow_enqueue_order (trace : list (Label (D := D)))
    (b : Broker (D := D)) (p : nat) :
  run Marshal NewBroker trace b ->
  enqueued p trace = received p trace ++ queueOf b p.
Proof.
  intros Hr. remember NewBroker as b0 eqn:Eb0.
  induction Hr as [b|b trace b' l b'' _ IH Hs].
  - subst. reflexivity.
  - specialize (IH Eb0).
    rewrite enqueued_snoc, received_snoc, IH, <- !app_assoc.
    f_equal. symmetry. now apply step_queue.
Qed.

Lemma run_cons (b b' b'' : Broker (D := D)) (l : Label) (trace : list Label) :
  step Marshal b l b' -> run Marshal b' trace b'' -> run Marshal b (l :: trace) b''.
Proof.
  intros Hs Hr. induction Hr as [b'|b' trace b1 l' b2 _ IH Hs'].
  - apply (run_snoc Marshal b [] b l b'); [constructor | exact Hs].
  - specialize (IH Hs). change (l :: trace ++ [l']) with ((l :: trace) ++ [l']).
    eapply run_snoc; eassumption.
Qed.


End WithData.

(** The run of [reorderedTrace]. *)
Lemma reordered_run :
  exists b, run raw NewBroker reorderedTrace b /\ queueOf b 0 = [].
Proof.
  eexists. split.
  - unfold reorderedTrace.
    eapply run_cons; [apply step_subscribe; [reflexivity | vm_compute; lia]|].
    eapply run_cons; [eapply step_register; [reflexivity | reflexivity | vm_compute; reflexivity]|].
    eapply run_cons; [apply step_broadcast|].
    eapply run_cons; [apply step_broadcast|].
    eapply run_cons; [eapply step_dispatch; [reflexivity | vm_compute; reflexivity]|].
    eapply run_cons; [eapply step_dispatch; [reflexivity | vm_compute; reflexivity]|].
    eapply run_cons;
      [eapply (step_send raw _ [(0%nat, bytesA)] [] 0%nat bytesB true);
         [vm_compute; reflexivity | vm_compute; reflexivity]|].
    eapply run_cons;
      [eapply (step_send raw _ [] [] 0%nat bytesA true);
         [vm_compute; reflexivity | vm_compute; reflexivity]|].
    eapply run_cons; [eapply step_receive; [vm_compute; reflexivity | reflexivity]|].
    eapply run_cons; [eapply step_receive; [vm_compute; reflexivity | reflexivity]|].
    apply run_nil.
  - vm_compute. reflexivity.
Qed.

(** C8 as worded fails.  One subscriber; A is published, then B; the broker
    dispatches A, then B, each by a goroutine of its own; the goroutine of B
    runs first, and the subscriber receives B before A. *)
Lemma later_event_can_arrive_first :
  (exists b, run raw NewBroker reorderedTrace b)
  /\ published reorderedTrace = ["A"; "B"]
  /\ serializeEvent raw eventA = Ok bytesA
  /\ serializeEvent raw eventB = Ok bytesB
  /\ received 0 reorderedTrace = [bytesB; bytesA].
Proof.
  split.
  - destruct reordered_run as (b & Hr & _). now exists b.
  - repeat split; vm_compute; reflexivity.
Qed.

(** The run of [reorderedTrace]: what was received is what was put in the
    queue, in that order. *)
Lemma deliveries_follow_enqueue_order_witness :
  enqueued 0 reorderedTrace = received 0 reorderedTrace.
Proof.
  destruct reordered_run as (b & Hr & Hq).
  rewrite (deliveries_follow_enqueue_order raw reorderedTrace b 0 Hr), Hq.
  apply app_nil_r.
Defined.


End SseProps.

(** ** Fenced text (C9) *)

Lemma len_append (a b : string) : len (a +:+ b) = (len a + len b)%Z.
Proof. unfold len. rewrite length_append. lia. Qed.

Lemma len_nonneg (a : string) : (0 <= len a)%Z.
Proof. unfold len. lia. Qed.

Lemma substring_0_all (s : string) : String.substring 0 (String.length s) s = s.
Proof. induction s as [|c s IH]; cbn; [reflexivity | now rewrite IH]. Qed.

Lemma substring_0_app (a b : string) : String.substring 0 (String.length a) (a +:+ b) = a.
Proof.
  induction a as [|c a IH]; cbn; [now destruct b | now rewrite IH].
Qed.

Lemma substring_skip (a b : string) (n : nat) :
  String.substring (String.length a) n (a +:+ b) = String.substring 0 n b.
Proof. induction a as [|c a IH]; cbn; [reflexivity | exact IH]. Qed.

Lemma sliceFrom_app (a b : string) : sliceFrom (a +:+ b) (len a) = b.
Proof.
  unfold sliceFrom, slice. rewrite len_append.
  replace (Z.to_nat (len a)) with (String.length a) by (unfold len; lia).
  replace (Z.to_nat (len a + len b - len a)) with (String.length b) by (unfold len; lia).
  rewrite substring_skip. apply substring_0_all.
Qed.

Lemma slice_app (a m z : string) :
  slice (a +:+ m +:+ z) (len a) (len a + len m) = m.
Proof.
  unfold slice.
  replace (Z.to_nat (len a)) with (String.length a) by (unfold len; lia).
  replace (Z.to_nat (len a + len m - len a)) with (String.length m) by (unfold len; lia).
  rewrite substring_skip. apply substring_0_app.
Qed.

Lemma findSubstringFrom_prefix (text sub : string) (i : Z) :
  String.prefix sub text = true -> findSubstringFrom text sub i = i.
Proof. intros Hp. destruct text; cbn [findSubstringFrom]; now rewrite Hp. Qed.

(** [findSubstring] finds nothing exactly where [strings.Contains] says
    no. *)
Lemma findSubstringFrom_none (text sub : string) :
  forall i, (0 <= i)%Z ->
  (findSubstringFrom text sub i = (-1)%Z <-> Contains text sub = false) /\
  (findSubstringFrom text sub i = (-1)%Z \/ (i <= findSubstringFrom text sub i)%Z).
Proof.
  induction text as [|c text IH]; intros i Hi; cbn [findSubstringFrom Contains].
  - destruct (String.prefix sub EmptyString); split; try split; try lia; try discriminate; auto.
  - destruct (String.prefix sub (String c text)).
    + split; [split; [lia | discriminate] | right; lia].
    + destruct (IH (i + 1)%Z ltac:(lia)) as [Hiff Hge]. split; [exact Hiff | lia].
Qed.

Lemma findSubstring_none (text sub : string) :
  findSubstring text sub = (-1)%Z <-> Contains text sub = false.
Proof. apply (findSubstringFrom_none text sub 0). lia. Qed.

Lemma prefix_shorter (a b t : string) :
  String.prefix (a +:+ b) t = true -> String.prefix a t = true.
Proof.
  revert t. induction a as [|c a IH]; intros t Hp; [now destruct t|].
  destruct t as [|d t]; [discriminate|]. cbn in Hp |- *.
  destruct (ascii_dec c d); [now apply IH | discriminate].
Qed.

Lemma Contains_shorter (s a b : string) :
  Contains s a = false -> Contains s (a +:+ b) = false.
Proof.
  induction s as [|c s IH]; cbn [Contains]; intros Hc.
  - destruct (String.prefix (a +:+ b) EmptyString) eqn:Ep; [|reflexivity].
    now rewrite (prefix_shorter a b _ Ep) in Hc.
  - destruct (String.prefix (a +:+ b) (String c s)) eqn:Ep.
    + now rewrite (prefix_shorter a b _ Ep) in Hc.
    + destruct (String.prefix a (String c s)); [discriminate | now apply IH].
Qed.

Lemma prefix_fence_app (s : string) :
  String.prefix codeStart s = false ->
  String.prefix codeStart (s +:+ lf +:+ codeStart) = false.
Proof.
  unfold codeStart, lf.
  destruct s as [|a [|b [|c s]]]; cbn -[ascii_dec]; intros Hp;
    repeat (destruct (ascii_dec _ _); subst; try discriminate; try reflexivity);
    try exact Hp.
  destruct s; discriminate.
Qed.

Lemma find_closing_fence (content : string) :
  Contains content codeStart = false ->
  forall i, findSubstringFrom (content +:+ lf +:+ codeStart) codeStart i
            = (i + len content + 1)%Z.
Proof.
  induction content as [|c content IH]; intros Hc i.
  - change (EmptyString +:+ lf +:+ codeStart) with (String "010" codeStart).
    cbn [findSubstringFrom].
    change (String.prefix codeStart (String "010" codeStart)) with false. cbv iota.
    rewrite (findSubstringFrom_prefix codeStart codeStart (i + 1) eq_refl).
    change (len EmptyString) with 0%Z. lia.
  - cbn [Contains] in Hc.
    destruct (String.prefix codeStart (String c content)) eqn:Ep; [discriminate|].
    change (String c content +:+ lf +:+ codeStart)
      with (String c (content +:+ lf +:+ codeStart)).
    cbn [findSubstringFrom].
    pose proof (prefix_fence_app _ Ep) as Hq.
    change (String c content +:+ lf +:+ codeStart)
      with (String c (content +:+ lf +:+ codeStart)) in Hq.
    rewrite Hq, (IH Hc). unfold len. cbn [String.length]. lia.
Qed.

Lemma find_fence_after_line_feed (content : string) :
  Contains content codeStart = false ->
  findSubstring (lf +:+ content +:+ lf +:+ codeStart) codeStart = (len content + 2)%Z.
Proof.
  intros Hc. unfold findSubstring.
  change (lf +:+ content +:+ lf +:+ codeStart)
    with (String "010" (content +:+ lf +:+ codeStart)).
  cbn [findSubstringFrom].
  replace (String.prefix codeStart (String "010" (content +:+ lf +:+ codeStart)))
    with false by (cbn -[ascii_dec]; reflexivity).
  rewrite (find_closing_fence content Hc). lia.
Qed.

Lemma findEnd_fenced (content : string) :
  Contains content codeStart = false ->
  findEnd (fenced content) (len jsonStart) endMarkers
  = (len jsonStart + (len content + 2))%Z.
Proof.
  intros Hc. unfold endMarkers, fenced. cbn [findEnd]. rewrite sliceFrom_app.
  change "```" with codeStart. rewrite (find_fence_after_line_feed content Hc).
  pose proof (len_nonneg content) as Hl.
  destruct (Z.eqb_spec (len content + 2) (-1)); [lia | reflexivity].
Qed.

Lemma findSubstring_fenced (content : string) :
  findSubstring (fenced content) jsonStart = 0%Z.
Proof. apply findSubstringFrom_prefix, prefix_app. Qed.

Lemma extract_fenced (content : string) :
  Contains content codeStart = false ->
  extractJSONFromResponse (fenced content) = lf +:+ content +:+ lf.
Proof.
  intros Hc. unfold extractJSONFromResponse.
  rewrite findSubstring_fenced. cbn [Z.eqb negb].
  change (0 + len jsonStart)%Z with (len jsonStart).
  change (len jsonStart =? -1)%Z with false. cbn [negb andb].
  rewrite (findEnd_fenced content Hc).
  pose proof (len_nonneg content) as Hl.
  assert (Hlen : (len jsonStart + (len content + 2) = len jsonStart + len (lf +:+ content +:+ lf))%Z)
    by (rewrite !len_append; change (len lf) with 1%Z; lia).
  destruct (Z.eqb_spec (len jsonStart + (len content + 2)) (-1));
    [change (len jsonStart) with 7%Z in *; lia|].
  destruct (Z.ltb_spec (len jsonStart) (len jsonStart + (len content + 2))); [|lia].
  cbn [negb andb]. rewrite Hlen. unfold fenced.
  replace (lf +:+ content +:+ lf +:+ codeStart)
    with ((lf +:+ content +:+ lf) +:+ codeStart) by (now rewrite !append_assoc).
  apply slice_app.
Qed.

Lemma extract_plain (content : string) :
  Contains content codeStart = false -> extractJSONFromResponse content = EmptyString.
Proof.
  intros Hc. unfold extractJSONFromResponse.
  assert (Hj : findSubstring content jsonStart = (-1)%Z).
  { apply findSubstring_none. apply (Contains_shorter content codeStart "json" Hc). }
  assert (Hs : findSubstring content codeStart = (-1)%Z) by now apply findSubstring_none.
  rewrite Hj, Hs. reflexivity.
Qed.

Section WithJson.
Context `{JsonLaws}.

(** C9, as the code has it.  For a content in which no run of three back
    quotes occurs, parsing the content in a code block tagged as JSON and
    parsing the content itself give the same plan, or both give none. *)
Theorem fenced_text_parses_as_raw (content : string) :
  findSubstring content codeStart = (-1)%Z ->
  planOf (ParseExecutionPlan (fenced content)) = planOf (ParseExecutionPlan content).
Proof.
  intros Hnone. apply findSubstring_none in Hnone.
  unfold ParseExecutionPlan.
  destruct (Unmarshal_back_quote (String "`" (String "`" ("json" +:+ lf +:+ content +:+ lf +:+ codeStart)))
              zeroPlan) as [err Hb].
  change (String "`" (String "`" (String "`" ("json" +:+ lf +:+ content +:+ lf +:+ codeStart))))
    with (fenced content) in Hb.
  rewrite Hb, (extract_fenced content Hnone).
  change (isEmpty (lf +:+ content +:+ lf)) with false. cbv iota.
  destruct (Unmarshal_line_feeds content zeroPlan) as [Hplan Herr].
  destruct (Unmarshal (lf +:+ content +:+ lf) zeroPlan) as [p1 e1].
  destruct (Unmarshal content zeroPlan) as [p2 e2]. cbn [fst snd] in *. subst p2.
  destruct e1 as [e1|], e2 as [e2|].
  - rewrite (extract_plain content Hnone). reflexivity.
  - destruct Herr as [_ Herr]. now specialize (Herr eq_refl).
  - destruct Herr as [Herr _]. now specialize (Herr eq_refl).
  - reflexivity.
Qed.

End WithJson.

(** The reference decoder keeps the laws. *)
Lemma trimRight_line_feed (s : string) : RefJson.trimRight (s +:+ lf) = RefJson.trimRight s.
Proof.
  induction s as [|c s IH]; [reflexivity|].
  change (String c s +:+ lf) with (String c (s +:+ lf)).
  cbn [RefJson.trimRight]. now rewrite IH.
Qed.

Lemma parseDocument_line_feeds (data : string) :
  RefJson.parseDocument (lf +:+ data +:+ lf) = RefJson.parseDocument data.
Proof.
  unfold RefJson.parseDocument.
  change (lf +:+ data +:+ lf) with (String "010" (data +:+ lf)).
  cbn [RefJson.trimRight]. rewrite trimRight_line_feed.
  destruct (RefJson.trimRight data) as [|c t]; reflexivity.
Qed.

Lemma parseDocument_back_quote (data : string) :
  RefJson.parseDocument (String "`" data) = None.
Proof.
  unfold RefJson.parseDocument.
  assert (Ht : RefJson.trimRight (String "`" data) = String "`" (RefJson.trimRight data)).
  { cbn [RefJson.trimRight]. destruct (RefJson.trimRight data); reflexivity. }
  rewrite Ht. reflexivity.
Qed.

#[export] Instance RefJson_laws : JsonLaws (H := RefJson.json).
Proof.
  split.
  - intros data plan. cbn [Unmarshal RefJson.json]. unfold RefJson.Unmarshal.
    rewrite parseDocument_line_feeds. split; [reflexivity | tauto].
  - intros data plan. cbn [Unmarshal RefJson.json]. unfold RefJson.Unmarshal.
    rewrite parseDocument_back_quote. eauto.
Qed.

(** The text of a plan, in a code block and as it is. *)
Lemma fenced_text_parses_as_raw_witness :
  planOf (ParseExecutionPlan (H := RefJson.json) (fenced textOneStep))
  = planOf (ParseExecutionPlan (H := RefJson.json) textOneStep).
Proof.
  apply (fenced_text_parses_as_raw (H := RefJson.json) textOneStep).
  vm_compute. reflexivity.
Defined.

(** C9 as worded fails.  The content is a plan whose thought has three back
    quotes in it: parsed as it is it gives the plan; in a code block the
    extraction stops at those back quotes, what is extracted is no JSON
    text, and the parse gives an error. *)
Lemma fence_ends_at_back_quotes_in_content :
  planOf (ParseExecutionPlan (H := RefJson.json) textWithBackQuotes)
    = Ret (Some {| Thought := "put the answer between ``` marks";
                   Steps := [Some scenarioStep] |})
  /\ extractJSONFromResponse (fenced textWithBackQuotes)
     = lf +:+ quoted "{'thought':'put the answer between "
  /\ planOf (ParseExecutionPlan (H := RefJson.json) (fenced textWithBackQuotes)) = Ret None.
Proof. repeat split; vm_compute; reflexivity. Qed.
